(** * addons-frontend: the collection form and the install button

  A shallow embedding of two React components of the add-on marketplace
  front-end:

  - [CollectionManager] (the collection editing form): the edit buffer,
    slug derivation, the submit-button policy, prop reception, the
    added-status timer and the cancel handler;
  - [InstallButton] ([src/core/components/InstallButton/index.js]):
    [getFileHash], the click handlers and the branch selection of
    [render].

  JavaScript strings are modelled as [string] (code units below 256),
  [null]/[undefined] as [None], numbers that are identifiers, times or
  status codes as [Z] or [N].  Handlers are functions into a small
  trace-and-exception monad: the trace lists, in program order, the
  calls the handler makes on its collaborators (router, tracking, logger,
  the browser), and the outcome is a returned value or a thrown error. *)

From Stdlib Require Import String Ascii List ZArith NArith Bool Lia.
From Stdlib Require Import DecimalString.
Import ListNotations.

Open Scope string_scope.
Open Scope list_scope.

(** ** JavaScript values that the components only pass through *)

#[local] Set Warnings "-register-all".

Inductive JSValue : Type :=
| JSUndefined
| JSNull
| JSBool (b : bool)
| JSNumber (z : Z)
| JSString (s : string)
| JSArray (items : list JSValue)
| JSObject (fields : list (string * JSValue)).

(** ** String primitives of the host language *)

Module JSString.

(** Truthiness of a string: only the empty string is falsy. *)
Definition truthy (s : string) : bool :=
  match s with
  | EmptyString => false
  | String _ _ => true
  end.

(** Truthiness of a [?string]: [null], [undefined] and [''] are falsy. *)
Definition truthy_opt (s : option string) : bool :=
  match s with
  | None => false
  | Some s => truthy s
  end.

(** White space and line terminators among the code units below 256:
    TAB, LF, VT, FF, CR, SPACE and NBSP. *)
Definition isWhiteSpace (c : ascii) : bool :=
  let n := N_of_ascii c in
  (((9 <=? n) && (n <=? 13)) || (n =? 32) || (n =? 160))%N.

(** The character class [[A-Za-z0-9]]. *)
Definition isAlphaNumeric (c : ascii) : bool :=
  let n := N_of_ascii c in
  (((48 <=? n) && (n <=? 57)) || ((65 <=? n) && (n <=? 90))
   || ((97 <=? n) && (n <=? 122)))%N.

Fixpoint trimStart (s : string) : string :=
  match s with
  | EmptyString => EmptyString
  | String c r => if isWhiteSpace c then trimStart r else s
  end.

Fixpoint trimEnd (s : string) : string :=
  match s with
  | EmptyString => EmptyString
  | String c r =>
      match trimEnd r with
      | EmptyString => if isWhiteSpace c then EmptyString
                       else String c EmptyString
      | r' => String c r'
      end
  end.

(** [String.prototype.trim]. *)
Definition trim (s : string) : string := trimEnd (trimStart s).

(** Puts a character in front of the first segment of a segment list. *)
Definition consHead (c : ascii) (segs : list string) : list string :=
  match segs with
  | [] => [String c EmptyString]
  | seg :: rest => String c seg :: rest
  end.

(** [s.split(sep)] for a separator that matches exactly one character
    ([sep] tells which characters match): every matching character ends
    a segment, and empty segments are kept. *)
Fixpoint split (sep : ascii -> bool) (s : string) : list string :=
  match s with
  | EmptyString => [EmptyString]
  | String c r =>
      if sep c then EmptyString :: split sep r
      else consHead c (split sep r)
  end.

(** The test [(s) => s !== ''] of a filter. *)
Definition nonEmpty (s : string) : bool := negb (String.eqb s EmptyString).

(** [Array.prototype.join]. *)
Definition join (sep : string) (segs : list string) : string :=
  String.concat sep segs.

(** [s.startsWith(p)]. *)
Definition startsWith (s p : string) : bool := String.prefix p s.

(** Membership of a character in a string. *)
Fixpoint occurs (c : ascii) (s : string) : bool :=
  match s with
  | EmptyString => false
  | String d r => Ascii.eqb c d || occurs c r
  end.

End JSString.

(** ** Traces and exceptions *)

Inductive Outcome (A : Type) : Type :=
| Returned (a : A)
| Threw (message : string).

Arguments Returned {A} a.
Arguments Threw {A} message.

(** A computation that has made the calls of its trace, in order, and then
  returned or thrown. *)
Definition Eff (E A : Type) : Type := (list E * Outcome A)%type.

Module EffMonad.

Definition ret {E A} (a : A) : Eff E A := ([], Returned a).

Definition bind {E A B} (m : Eff E A) (k : A -> Eff E B) : Eff E B :=
  match m with
  | (t, Returned a) => let (t', o) := k a in (t ++ t', o)
  | (t, Threw msg) => (t, Threw msg)
  end.

(** One call on a collaborator. *)
Definition call {E} (e : E) : Eff E unit := ([e], Returned tt).

(** [throw new Error(msg)]. *)
Definition throw {E A} (msg : string) : Eff E A := ([], Threw msg).

(** [invariant(condition, msg)] of the [invariant] package. *)
Definition invariant {E} (condition : bool) (msg : string) : Eff E unit :=
  if condition then ret tt else throw msg.

(** [if (condition) { body }]. *)
Definition when {E} (condition : bool) (body : Eff E unit) : Eff E unit :=
  if condition then body else ret tt.

Definition trace {E A} (m : Eff E A) : list E := fst m.
Definition outcome {E A} (m : Eff E A) : Outcome A := snd m.

Declare Scope eff_scope.
Delimit Scope eff_scope with eff.

Notation "x <- m ;; k" := (bind m (fun x => k))
  (at level 61, m at next level, right associativity) : eff_scope.
Notation "m ;; k" := (bind m (fun _ => k))
  (at level 61, right associativity) : eff_scope.

End EffMonad.

(** ** The window's timer table

    [setTimeout] and [clearTimeout] as the form receives them through its
    props (by default [window.setTimeout] and [window.clearTimeout]).  A
    pending timer is an identifier with the time at which it is due. *)

Module Window.

Record Timers : Type := mkTimers {
  now : N;
  nextId : N;
  pending : list (N * N)
}.

(** Timer identifiers of a window are positive. *)
Definition initial : Timers :=
  {| now := 0; nextId := 1; pending := [] |}.

Definition setTimeout (delay : N) (w : Timers) : N * Timers :=
  (nextId w,
   {| now := now w;
      nextId := nextId w + 1;
      pending := pending w ++ [(nextId w, (now w + delay)%N)] |}).

Definition clearTimeout (id : N) (w : Timers) : Timers :=
  {| now := now w;
     nextId := nextId w;
     pending := filter (fun t => negb (fst t =? id)%N) (pending w) |}.

(** The timers that have come due at time [t], in the order in which they
    were set, and those that are still waiting. *)
Definition dueAt (t : N) (w : Timers) : list (N * N) :=
  filter (fun x => (snd x <=? t)%N) (pending w).

Definition waitingAt (t : N) (w : Timers) : list (N * N) :=
  filter (fun x => negb (snd x <=? t)%N) (pending w).

End Window.

(** * The collection form ([CollectionManagerBase]) *)

Module CollectionManager.

Import EffMonad.

Definition MESSAGE_RESET_TIME : N := 5000.

Inductive AddonAddedStatusType : Type :=
| ADDON_ADDED_STATUS_PENDING
| ADDON_ADDED_STATUS_SUCCESS.

(** [CollectionType], the fields the form reads.  A [null] description is
    [None]. *)
Module Collection.
Record t : Type := mk {
  id : Z;
  authorUsername : string;
  defaultLocale : string;
  description : option string;
  name : string;
  slug : string
}.
End Collection.

(** [InternalProps], without the collaborators ([dispatch], [router],
    [errorHandler], [i18n], the timer functions), whose calls appear in
    traces. *)
Module Props.
Record t : Type := mk {
  collection : option Collection.t;
  creating : bool;
  filters : JSValue;
  clientApp : option string;
  currentUsername : option string;
  hasAddonBeenAdded : bool;
  isCollectionBeingModified : bool;
  siteLang : option string
}.
End Props.

(** [State], the edit buffer.  [None] is [null]. *)
Module State.
Record t : Type := mk {
  addonAddedStatus : option AddonAddedStatusType;
  customSlug : bool;
  description : option string;
  name : option string;
  slug : option string
}.

(** [setState] with a partial state of one key. *)
Definition setAddonAddedStatus (v : option AddonAddedStatusType) (s : t) : t :=
  mk v (customSlug s) (description s) (name s) (slug s).
Definition setCustomSlug (v : bool) (s : t) : t :=
  mk (addonAddedStatus s) v (description s) (name s) (slug s).
Definition setDescription (v : option string) (s : t) : t :=
  mk (addonAddedStatus s) (customSlug s) v (name s) (slug s).
Definition setName (v : option string) (s : t) : t :=
  mk (addonAddedStatus s) (customSlug s) (description s) v (slug s).
Definition setSlug (v : option string) (s : t) : t :=
  mk (addonAddedStatus s) (customSlug s) (description s) (name s) v.
End State.

(** The [name] attribute of an input that [render] binds to
    [onTextInput]: the form has exactly the inputs [name], [description]
    and [slug]. *)
Inductive InputName : Type :=
| name_input
| description_input
| slug_input.

(** [event.target] of a text-input event; a [null] or [undefined] value is
    [None]. *)
Module Target.
Record t : Type := mk {
  name : InputName;
  value : option string
}.
End Target.

Definition InputName_eqb (a b : InputName) : bool :=
  match a, b with
  | name_input, name_input => true
  | description_input, description_input => true
  | slug_input, slug_input => true
  | _, _ => false
  end.

(** [setState({ [name]: value })]. *)
Definition setField (name : InputName) (value : option string)
  (s : State.t) : State.t :=
  match name with
  | name_input => State.setName value s
  | description_input => State.setDescription value s
  | slug_input => State.setSlug value s
  end.

(** The calls the form's handlers make on their collaborators. *)
Inductive Effect : Type :=
| preventDefault
| stopPropagation
| router_goBack
| errorHandler_clear
| router_push (pathname : string) (query : JSValue).

(** The component instance: [this.props], [this.state], [this.timeout]
    and whether it is still mounted. *)
Record Component : Type := mkComponent {
  props : Props.t;
  state : State.t;
  timeout : option N;
  mounted : bool
}.

Definition opt_string_eqb (a b : option string) : bool :=
  match a, b with
  | Some x, Some y => String.eqb x y
  | None, None => true
  | _, _ => false
  end.

Definition opt_Z_eqb (a b : option Z) : bool :=
  match a, b with
  | Some x, Some y => Z.eqb x y
  | None, None => true
  | _, _ => false
  end.

(** The slug computed from a name in [onTextInput]:
    [trimmedValue.split(/[^A-Za-z0-9]/).filter((s) => s !== '').join('-')]. *)
Definition slugOfName (trimmedValue : string) : string :=
  JSString.join "-"
    (filter JSString.nonEmpty
       (JSString.split (fun c => negb (JSString.isAlphaNumeric c))
          trimmedValue)).

(** The same slug in the words of the specification: the name is split on
    every maximal run of non-alphanumeric characters, and the non-empty
    segments are joined with a hyphen.  [inRun] tells that the character
    before the current one was part of a separator run. *)
Fixpoint splitOnRuns (sep : ascii -> bool) (inRun : bool) (s : string)
  : list string :=
  match s with
  | EmptyString => [EmptyString]
  | String c r =>
      if sep c then
        if inRun then splitOnRuns sep true r
        else EmptyString :: splitOnRuns sep true r
      else JSString.consHead c (splitOnRuns sep false r)
  end.

Definition slugBySpec (trimmedName : string) : string :=
  JSString.join "-"
    (filter JSString.nonEmpty
       (splitOnRuns (fun c => negb (JSString.isAlphaNumeric c)) false
          trimmedName)).

Section WithImports.

(** [decodeHtmlEntities] of [core/utils] and [convertFiltersToQueryParams]
    of [amo/reducers/collections] are imported by the form. *)
Variable decodeHtmlEntities : option string -> option string.
Variable convertFiltersToQueryParams : JSValue -> JSValue.

Definition propsToState (props : Props.t) : State.t :=
  {| State.addonAddedStatus := None;
     State.customSlug := false;
     State.description :=
       match Props.collection props with
       | Some c => decodeHtmlEntities (Collection.description c)
       | None => None
       end;
     State.name :=
       match Props.collection props with
       | Some c => decodeHtmlEntities (Some (Collection.name c))
       | None => None
       end;
     State.slug :=
       match Props.collection props with
       | Some c => Some (Collection.slug c)
       | None => None
       end |}.

Definition constructor (props : Props.t) : Component :=
  {| props := props;
     state := propsToState props;
     timeout := None;
     mounted := true |}.

(** [componentWillReceiveProps(props)]; [this.props] still holds the
    previous props while it runs. *)
Definition componentWillReceiveProps (this : Component)
  (newProps : Props.t) (w : Window.Timers) : Component * Window.Timers :=
  let existingId := option_map Collection.id (Props.collection (props this)) in
  let hasAddonBeenAddedNew := Props.hasAddonBeenAdded newProps in
  let hasAddonBeenAdded := Props.hasAddonBeenAdded (props this) in
  let s1 :=
    match Props.collection newProps with
    | Some c =>
        if negb (opt_Z_eqb (Some (Collection.id c)) existingId)
        then propsToState newProps
        else state this
    | None => state this
    end in
  let s2 :=
    if negb (Bool.eqb hasAddonBeenAdded hasAddonBeenAddedNew)
    then State.setAddonAddedStatus
           (if Props.hasAddonBeenAdded newProps
            then Some ADDON_ADDED_STATUS_SUCCESS else None) s1
    else s1 in
  if hasAddonBeenAddedNew
     && negb (Bool.eqb hasAddonBeenAddedNew hasAddonBeenAdded)
  then
    let (id, w') := Window.setTimeout MESSAGE_RESET_TIME w in
    ({| props := props this; state := s2; timeout := Some id;
        mounted := mounted this |}, w')
  else
    ({| props := props this; state := s2; timeout := timeout this;
        mounted := mounted this |}, w).

(** Reception of new props by a mounted component: the hook runs, then
    the new props become [this.props]. *)
Definition receiveProps (this : Component) (newProps : Props.t)
  (w : Window.Timers) : Component * Window.Timers :=
  let (this', w') := componentWillReceiveProps this newProps w in
  ({| props := newProps; state := state this'; timeout := timeout this';
      mounted := mounted this' |}, w').

(** [componentWillUnmount()]: [if (this.timeout)] is false for an unset
    timeout and for the identifier 0. *)
Definition componentWillUnmount (this : Component) (w : Window.Timers)
  : Window.Timers :=
  match timeout this with
  | Some id => if (id =? 0)%N then w else Window.clearTimeout id w
  | None => w
  end.

Definition resetMessageStatus (this : Component) : Component :=
  {| props := props this;
     state := State.setAddonAddedStatus None (state this);
     timeout := timeout this;
     mounted := mounted this |}.

(** [onTextInput(event)], as a function on the edit buffer (the handler
    also calls [event.preventDefault()]). *)
Definition onTextInput (props : Props.t) (s : State.t) (target : Target.t)
  : State.t :=
  let name := Target.name target in
  let creating := Props.creating props in
  match Target.value target with
  | None => s
  | Some value =>
      let trimmedValue := JSString.trim value in
      if creating && InputName_eqb name name_input
         && negb (State.customSlug s)
      then setField name (Some value)
             (State.setSlug (Some (slugOfName trimmedValue)) s)
      else if creating && InputName_eqb name slug_input
              && negb (String.eqb trimmedValue EmptyString)
      then setField name (Some value) (State.setCustomSlug true s)
      else setField name (Some value) s
  end.

(** [onCancel(event)]: the trace, and the new edit buffer when the handler
    returns. *)
Definition onCancel (props : Props.t) : Eff Effect State.t :=
  (call preventDefault ;;
   call stopPropagation ;;
   when (Props.creating props) (call router_goBack) ;;
   match Props.collection props with
   | None => throw "A collection must be loaded before you can cancel"
   | Some collection =>
       invariant (JSString.truthy_opt (Props.clientApp props))
         "A clientApp must be loaded before you can cancel" ;;
       invariant (JSString.truthy_opt (Props.siteLang props))
         "A siteLang must be loaded before you can cancel" ;;
       call errorHandler_clear ;;
       call (router_push
               ("/" ++ match Props.siteLang props with Some l => l | None => EmptyString end
                ++ "/" ++ match Props.clientApp props with Some a => a | None => EmptyString end
                ++ "/collections/" ++ Collection.authorUsername collection
                ++ "/" ++ Collection.slug collection ++ "/")
               (convertFiltersToQueryParams (Props.filters props))) ;;
       ret (propsToState props)
   end)%eff.

(** The submit-button policy of [render]. *)
Definition formIsUnchanged (props : Props.t) (s : State.t) : bool :=
  match Props.collection props with
  | None => false
  | Some collection =>
      opt_string_eqb (Some (Collection.name collection)) (State.name s)
      && opt_string_eqb (Some (Collection.slug collection)) (State.slug s)
      && (opt_string_eqb (Collection.description collection)
            (State.description s)
          || (opt_string_eqb (Collection.description collection) None
              && negb (JSString.truthy_opt (State.description s))))
  end.

Definition formIsDisabled (props : Props.t) : bool :=
  (match Props.collection props with None => true | Some _ => false end
   && negb (Props.creating props))
  || Props.isCollectionBeingModified props.

Definition isBlank (field : option string) : bool :=
  negb (match field with
        | None => false
        | Some v =>
            JSString.truthy v
            && negb (Nat.eqb (String.length (JSString.trim v)) 0)
        end).

Definition isNameBlank (s : State.t) : bool := isBlank (State.name s).
Definition isSlugBlank (s : State.t) : bool := isBlank (State.slug s).

Definition isSubmitDisabled (props : Props.t) (s : State.t) : bool :=
  formIsDisabled props || formIsUnchanged props s
  || isNameBlank s || isSlugBlank s.

End WithImports.

(** *** The life of a mounted form

    The host delivers new props and text-input events, lets time pass
    (running the timers that come due) and finally unmounts the
    component. *)

Inductive Step : Type :=
| Receive (newProps : Props.t)
| Input (target : Target.t)
| Elapse (dt : N)
| Unmount.

(** [calls] lists the invocations of [resetMessageStatus] by the timer
    table: the time of each, and whether the component was still mounted. *)
Record World : Type := mkWorld {
  component : Component;
  window : Window.Timers;
  calls : list (N * bool)
}.

(** Runs the callback of each timer of [due] in turn. *)
Fixpoint fire (due : list (N * N)) (this : Component) (log : list (N * bool))
  : Component * list (N * bool) :=
  match due with
  | [] => (this, log)
  | (_, at_) :: rest =>
      fire rest (resetMessageStatus this) (log ++ [(at_, mounted this)])
  end.

Section Life.

Variable decodeHtmlEntities : option string -> option string.

Definition step (x : World) (e : Step) : World :=
  match e with
  | Receive newProps =>
      if mounted (component x) then
        let (this', w') :=
          receiveProps decodeHtmlEntities (component x) newProps (window x) in
        {| component := this'; window := w'; calls := calls x |}
      else x
  | Input target =>
      if mounted (component x) then
        {| component :=
             {| props := props (component x);
                state := onTextInput (props (component x))
                           (state (component x)) target;
                timeout := timeout (component x);
                mounted := true |};
           window := window x;
           calls := calls x |}
      else x
  | Elapse dt =>
      let t := (Window.now (window x) + dt)%N in
      let (this', log') :=
        fire (Window.dueAt t (window x)) (component x) (calls x) in
      {| component := this';
         window := {| Window.now := t;
                      Window.nextId := Window.nextId (window x);
                      Window.pending := Window.waitingAt t (window x) |};
         calls := log' |}
  | Unmount =>
      if mounted (component x) then
        {| component := {| props := props (component x);
                           state := state (component x);
                           timeout := timeout (component x);
                           mounted := false |};
           window := componentWillUnmount (component x) (window x);
           calls := calls x |}
      else x
  end.

Definition run (x : World) (steps : list Step) : World :=
  fold_left step steps x.

(** A freshly mounted form in a fresh window. *)
Definition mount (props : Props.t) : World :=
  {| component := constructor decodeHtmlEntities props;
     window := Window.initial;
     calls := [] |}.

End Life.

(** *** The vocabulary of the specification *)

(** A field is blank when it is absent or empty once trimmed. *)
Definition blank (field : option string) : Prop :=
  match field with
  | None => True
  | Some v => JSString.trim v = EmptyString
  end.

(** The buffer holds exactly the persisted name, slug and description. *)
Definition bufferEqualsPersisted (props : Props.t) (s : State.t) : Prop :=
  exists c,
    Props.collection props = Some c
    /\ State.name s = Some (Collection.name c)
    /\ State.slug s = Some (Collection.slug c)
    /\ State.description s = Collection.description c.

(** The buffer holds the persisted name and slug, and its description is
    the persisted one or is empty while the persisted one is [null]. *)
Definition bufferUnchanged (props : Props.t) (s : State.t) : Prop :=
  exists c,
    Props.collection props = Some c
    /\ State.name s = Some (Collection.name c)
    /\ State.slug s = Some (Collection.slug c)
    /\ (State.description s = Collection.description c
        \/ (Collection.description c = None
            /\ State.description s = Some EmptyString)).

(** The in-progress edits of the buffer: everything but the added-status. *)
Definition edits (s : State.t)
  : option string * option string * option string * bool :=
  (State.name s, State.description s, State.slug s, State.customSlug s).

(** The identifier of the collection a component currently shows. *)
Definition currentId (this : Component) : option Z :=
  option_map Collection.id (Props.collection (props this)).

(** A step that is no text input and does not bring another collection:
    time passing, the unmounting, or props whose collection has the
    identifier [i]. *)
Definition sameCollectionStep (i : Z) (e : Step) : Prop :=
  match e with
  | Receive newProps =>
      exists c, Props.collection newProps = Some c /\ Collection.id c = i
  | Input _ => False
  | Elapse _ | Unmount => True
  end.

(** A step of an editing session on the collection [i] ([None] while a
    collection is being created): any step but the reception of another
    collection. *)
Definition sessionStep (i : option Z) (e : Step) : Prop :=
  match e with
  | Receive newProps =>
      option_map Collection.id (Props.collection newProps) = i
  | Input _ | Elapse _ | Unmount => True
  end.

(** A sample collection and sample props, for concrete runs. *)
Definition sampleCollection : Collection.t :=
  {| Collection.id := 7;
     Collection.authorUsername := "mozilla";
     Collection.defaultLocale := "en-US";
     Collection.description := None;
     Collection.name := "Privacy tools";
     Collection.slug := "privacy-tools" |}.

Definition sampleProps (creating added : bool) : Props.t :=
  {| Props.collection := Some sampleCollection;
     Props.creating := creating;
     Props.filters := JSObject [("page", JSNumber 1)];
     Props.clientApp := Some "firefox";
     Props.currentUsername := Some "mozilla";
     Props.hasAddonBeenAdded := added;
     Props.isCollectionBeingModified := false;
     Props.siteLang := Some "en-US" |}.

(** The props of the form that creates a collection, its empty buffer,
    and the identity in place of [decodeHtmlEntities]. *)
Definition newCollectionProps : Props.t :=
  {| Props.collection := None;
     Props.creating := true;
     Props.filters := JSObject [];
     Props.clientApp := Some "firefox";
     Props.currentUsername := Some "mozilla";
     Props.hasAddonBeenAdded := false;
     Props.isCollectionBeingModified := false;
     Props.siteLang := Some "en-US" |}.

Definition emptyBuffer : State.t :=
  {| State.addonAddedStatus := None;
     State.customSlug := false;
     State.description := None;
     State.name := None;
     State.slug := None |}.

Definition noDecoding (s : option string) : option string := s.

(** What follows the typing of a slug in the sample session: a
    description is typed, the same props arrive again and time passes. *)
Definition typingSession : list Step :=
  [ Input (Target.mk description_input (Some "All of them"));
    Receive newCollectionProps;
    Elapse 3000 ].

Definition sampleQueryParams (filters : JSValue) : JSValue := filters.

(** The buffer of the sample collection, as loaded, after the description
    has been typed in and erased, and after the name has been changed. *)
Definition bufferWith (name : string) (description : option string) : State.t :=
  {| State.addonAddedStatus := None;
     State.customSlug := false;
     State.description := description;
     State.name := Some name;
     State.slug := Some "privacy-tools" |}.

Definition emptiedDescription : State.t :=
  bufferWith "Privacy tools" (Some EmptyString).

(** A text input that does not mark the slug as edited by hand: any
    input but one on the slug field whose value is not empty once
    trimmed. *)
Definition notCustomising (e : Props.t * Target.t) : Prop :=
  Target.name (snd e) = slug_input ->
  forall v, Target.value (snd e) = Some v -> JSString.trim v = EmptyString.

(** The name [Foo Bar] typed key by key, with a description typed on the
    way. *)
Definition typingFooBar : list (Props.t * Target.t) :=
  [ (newCollectionProps, Target.mk name_input (Some "F"));
    (newCollectionProps, Target.mk name_input (Some "Fo"));
    (newCollectionProps, Target.mk name_input (Some "Foo"));
    (newCollectionProps, Target.mk description_input (Some "My tools"));
    (newCollectionProps, Target.mk name_input (Some "Foo ")) ].

(** The sample form after its name has been edited, and the props that
    bring another collection. *)
Definition editedForm : Component :=
  component
    (step noDecoding (mount noDecoding (sampleProps false false))
       (Input (Target.mk name_input (Some "Privacy toolbox")))).

Definition otherCollection : Collection.t :=
  {| Collection.id := 8;
     Collection.authorUsername := "mozilla";
     Collection.defaultLocale := "en-US";
     Collection.description := Some "Block and relax";
     Collection.name := "Ad blockers";
     Collection.slug := "ad-blockers" |}.

Definition otherProps : Props.t :=
  {| Props.collection := Some otherCollection;
     Props.creating := false;
     Props.filters := JSObject [];
     Props.clientApp := Some "firefox";
     Props.currentUsername := Some "mozilla";
     Props.hasAddonBeenAdded := false;
     Props.isCollectionBeingModified := false;
     Props.siteLang := Some "en-US" |}.

(** Two add-ons are added one second apart, the form is unmounted one
    second later, and five more seconds pass. *)
Definition twoAddsThenUnmount : list Step :=
  [ Receive (sampleProps false true);
    Elapse 1000;
    Receive (sampleProps false false);
    Receive (sampleProps false true);
    Elapse 1000;
    Unmount;
    Elapse 5000 ].

End CollectionManager.

(** * The install button ([InstallButtonBase]) *)

Module InstallButton.

Import EffMonad.

(** Modelled from the spec: the install-status constants of
    [core/constants], which the sources import but do not contain.  The
    specification lists the statuses not-installed, installing, installed,
    enabling, enabled, disabled, downloading and uninstalling. *)
Inductive InstallStatus : Type :=
| UNINSTALLED
| INSTALLING
| INSTALLED
| ENABLING
| ENABLED
| DISABLED
| DOWNLOADING
| UNINSTALLING.

(** Modelled from the spec: the add-on type constants of [core/constants]
    (extension, theme, search provider, and the others). *)
Inductive AddonTypeName : Type :=
| ADDON_TYPE_EXTENSION
| ADDON_TYPE_THEME
| ADDON_TYPE_OPENSEARCH
| ADDON_TYPE_OTHER (type : string).

(** Modelled from the spec: the two tracking actions of [core/constants]. *)
Inductive InstallAction : Type :=
| INSTALL_ACTION
| INSTALL_STARTED_ACTION.

Definition InstallStatus_eqb (a b : InstallStatus) : bool :=
  match a, b with
  | UNINSTALLED, UNINSTALLED | INSTALLING, INSTALLING
  | INSTALLED, INSTALLED | ENABLING, ENABLING | ENABLED, ENABLED
  | DISABLED, DISABLED | DOWNLOADING, DOWNLOADING
  | UNINSTALLING, UNINSTALLING => true
  | _, _ => false
  end.

Definition AddonTypeName_eqb (a b : AddonTypeName) : bool :=
  match a, b with
  | ADDON_TYPE_EXTENSION, ADDON_TYPE_EXTENSION => true
  | ADDON_TYPE_THEME, ADDON_TYPE_THEME => true
  | ADDON_TYPE_OPENSEARCH, ADDON_TYPE_OPENSEARCH => true
  | ADDON_TYPE_OTHER x, ADDON_TYPE_OTHER y => String.eqb x y
  | _, _ => false
  end.

(** [Array.prototype.includes] on a list of statuses. *)
Definition includes (statuses : list InstallStatus) (s : InstallStatus) : bool :=
  existsb (InstallStatus_eqb s) statuses.

(** A file of a version: its download URL and content hash. *)
Module File.
Record t : Type := mk {
  url : string;
  hash : string
}.
End File.

Module Version.
Record t : Type := mk {
  files : list File.t
}.
End Version.

(** [AddonType], the fields the button reads. *)
Module Addon.
Record t : Type := mk {
  guid : string;
  name : string;
  slug : string;
  type : AddonTypeName;
  current_version : option Version.t;
  platformFiles : JSValue
}.
End Addon.

(** [InternalProps].  [_InstallTrigger] tells whether the browser offers
    the [InstallTrigger] object ([null] otherwise); [server] is
    [_config.get('server')]; [_window_external] tells whether
    [_window.external] is defined (the default [_window] outside a
    browser is an empty object, which has none). *)
Module Props.
Record t : Type := mk {
  addon : Addon.t;
  className : option string;
  defaultInstallSource : string;
  location : JSValue;
  status : InstallStatus;
  _InstallTrigger : bool;
  _window_external : bool;
  server : bool;
  clientApp : string;
  userAgentInfo : JSValue
}.
End Props.

(** A click event: [event.currentTarget.href], which is [undefined] on an
    element that has no such property. *)
Record Event : Type := mkEvent {
  currentTarget_href : option string
}.

(** The object [InstallTrigger.install] receives under the add-on's name
    (its [toString] returns the [URL]). *)
Module Payload.
Record t : Type := mk {
  Hash : option string;
  IconURL : string;
  URL : option string
}.
End Payload.

(** The calls the button makes on its collaborators. *)
Inductive Effect : Type :=
| preventDefault
| stopPropagation
| log_warn (message : string)
| log_debug (message : string)
| log_info (message : string)
| tracking_sendEvent (action category label : string)
| external_AddSearchProvider (installURL : option string)
| InstallTrigger_install (name : string) (payload : Payload.t)
| props_uninstall (guid : string) (installURL : option string)
    (name : string) (type : AddonTypeName)
| props_installTheme (node_href : option string) (addon : Addon.t)
    (status : InstallStatus).

(** The function [render] puts in [buttonProps.onClick]. *)
Inductive Handler : Type :=
| onClick_preventDefault
| onClick_uninstallAddon
| onClick_installTheme
| onClick_installOpenSearch
| onClick_installExtension.

Module ButtonProps.
Record t : Type := mk {
  buttonType : string;
  data_browsertheme : option string;
  href : option string;
  onClick : Handler;
  prependClientApp : option bool;
  prependLang : option bool
}.
End ButtonProps.

(** What [render] returns inside [<div className="InstallButton">]: the
    loading animation, or the [Button] with its class names, props, icon
    and text. *)
Inductive Element : Type :=
| LoadingAnimation (alt : string)
| ButtonElement (className : list string) (buttonProps : ButtonProps.t)
    (iconName : string) (text : string).

(** The part of [installURL] before its first question mark:
    [installURL.split('?')[0]]. *)
Definition urlKeyOf (installURL : string) : string :=
  hd EmptyString (JSString.split (Ascii.eqb "?") installURL).

(** The loop of [getFileHash] over the files of the current version. *)
Fixpoint firstHash (urlKey : string) (files : list File.t) : option string :=
  match files with
  | [] => None
  | file :: rest =>
      if JSString.startsWith (File.url file) urlKey
      then Some (File.hash file)
      else firstHash urlKey rest
  end.

Definition currentFiles (addon : Addon.t) : list File.t :=
  match Addon.current_version addon with
  | Some v => Version.files v
  | None => []
  end.

(** The double-quote character of the log messages. *)
Definition dquote : string := String (Ascii.ascii_of_nat 34) EmptyString.

(** The one-line warning of [getFileHash]. *)
Definition noHashMessage (addon : Addon.t) (installURL urlKey : string)
  : string :=
  "No file hash found for addon " ++ dquote ++ Addon.slug addon ++ dquote
  ++ ", installURL " ++ dquote ++ installURL ++ dquote
  ++ " (as " ++ dquote ++ urlKey ++ dquote ++ ")".

(** [getFileHash({ addon, installURL })]; a missing argument is [None]. *)
Definition getFileHash (addon : option Addon.t) (installURL : option string)
  : Eff Effect (option string) :=
  match addon with
  | None => throw "The addon parameter cannot be empty"
  | Some addon =>
      match installURL with
      | None | Some EmptyString =>
          throw "The installURL parameter cannot be empty"
      | Some installURL =>
          let urlKey := urlKeyOf installURL in
          match firstHash urlKey (currentFiles addon) with
          | Some hash => ret (Some hash)
          | None =>
              (call (log_warn (noHashMessage addon installURL urlKey)) ;;
               ret None)%eff
          end
      end
  end.

Section WithImports.

(** Imported by the component and absent from the sources:
    [getAddonIconUrl] ([core/imageUtils]), [getAddonTypeForTracking] and
    [getAddonEventCategory] ([core/tracking]), [findInstallURL]
    ([core/installAddon]), [getThemeData] ([core/themeInstall]),
    [JSON.stringify], the compatibility check [_getClientCompatibility]
    (its [compatible] field), [i18n.gettext] and the list
    [ADDON_TYPE_THEMES]. *)
Variable getAddonIconUrl : Addon.t -> string.
Variable getAddonTypeForTracking : AddonTypeName -> string.
Variable getAddonEventCategory : AddonTypeName -> InstallAction -> string.
Variable findInstallURL : string -> JSValue -> JSValue -> JSValue -> option string.
Variable getThemeData : Addon.t -> JSValue.
Variable JSON_stringify : JSValue -> string.
Variable _getClientCompatibility : Addon.t -> string -> JSValue -> bool.
Variable gettext : string -> string.
Variable ADDON_TYPE_THEMES : list AddonTypeName.

Definition trackInstallStarted (addonName : string) (type : AddonTypeName)
  : Eff Effect unit :=
  call (tracking_sendEvent (getAddonTypeForTracking type)
          (getAddonEventCategory type INSTALL_STARTED_ACTION) addonName).

Definition trackInstallSucceeded (addonName : string) (type : AddonTypeName)
  : Eff Effect unit :=
  call (tracking_sendEvent (getAddonTypeForTracking type)
          (getAddonEventCategory type INSTALL_ACTION) addonName).

Definition installTheme (props : Props.t) (event : Event) : Eff Effect unit :=
  (call preventDefault ;;
   call stopPropagation ;;
   call (props_installTheme (currentTarget_href event) (Props.addon props)
           (Props.status props)))%eff.

(** [installOpenSearch(event)].  The call
    [_window.external.AddSearchProvider(installURL)] throws a [TypeError]
    when [_window.external] is undefined; the tracking call comes after
    it. *)
Definition installOpenSearch (props : Props.t) (event : Event)
  : Eff Effect bool :=
  let addon := Props.addon props in
  (call preventDefault ;;
   call stopPropagation ;;
   let installURL := currentTarget_href event in
   call (log_info "Adding OpenSearch Provider") ;;
   (if Props._window_external props
    then call (external_AddSearchProvider installURL)
    else throw "TypeError: _window.external is undefined") ;;
   trackInstallStarted (Addon.name addon) (Addon.type addon) ;;
   ret false)%eff.

(** [installExtension(event)] up to the return of [InstallTrigger.install];
    the completion callback it passes is [installCompleted]. *)
Definition installExtension (props : Props.t) (event : Event)
  : Eff Effect bool :=
  let addon := Props.addon props in
  let name := Addon.name addon in
  let type := Addon.type addon in
  (trackInstallStarted name type ;;
   if negb (Props._InstallTrigger props) then ret true
   else
     call (log_debug ("Installing addon " ++ dquote ++ Addon.slug addon
                      ++ dquote ++ " with InstallTrigger")) ;;
     call preventDefault ;;
     call stopPropagation ;;
     let installURL := currentTarget_href event in
     hash <- getFileHash (Some addon) installURL ;;
     call (InstallTrigger_install name
             {| Payload.Hash := hash;
                Payload.IconURL := getAddonIconUrl addon;
                Payload.URL := installURL |}) ;;
     ret false)%eff.

(** The callback [(xpiURL, status) => ...] given to
    [InstallTrigger.install]. *)
Definition installCompleted (props : Props.t) (xpiURL : string) (status : Z)
  : Eff Effect unit :=
  let addon := Props.addon props in
  (call (log_debug ("InstallTrigger completed for " ++ dquote ++ xpiURL
                    ++ dquote ++ "; status="
                    ++ DecimalString.NilZero.string_of_int (Z.to_int status))) ;;
   when (Z.eqb status 0)
     (trackInstallSucceeded (Addon.name addon) (Addon.type addon)))%eff.

Definition uninstallAddon (props : Props.t) (event : Event)
  : Eff Effect bool :=
  let addon := Props.addon props in
  (call preventDefault ;;
   call stopPropagation ;;
   let installURL := currentTarget_href event in
   call (props_uninstall (Addon.guid addon) installURL (Addon.name addon)
           (Addon.type addon)) ;;
   ret false)%eff.

Definition showLoadingAnimation (props : Props.t) : bool :=
  includes [DOWNLOADING; ENABLING; INSTALLING; UNINSTALLING]
    (Props.status props).

Definition getButtonText (props : Props.t) : string :=
  match Props.status props with
  | DISABLED | ENABLED | INSTALLED => gettext "Remove"
  | ENABLING => gettext "Enabling"
  | DOWNLOADING => gettext "Downloading"
  | INSTALLING => gettext "Installing"
  | UNINSTALLING => gettext "Uninstalling"
  | _ =>
      if existsb (AddonTypeName_eqb (Addon.type (Props.addon props)))
           ADDON_TYPE_THEMES
      then gettext "Install Theme"
      else gettext "Add to Firefox"
  end.

Definition getIconName (props : Props.t) : string :=
  match Props.status props with
  | DISABLED | ENABLED | INSTALLED => "delete"
  | _ => "plus"
  end.

(** [makeClassName('InstallButton-button', className,
    { 'InstallButton-button--disabled': buttonIsDisabled })], as the list
    of the class names it joins. *)
Definition makeClassName (className : option string) (buttonIsDisabled : bool)
  : list string :=
  ["InstallButton-button"]
  ++ match className with
     | Some c => if JSString.truthy c then [c] else []
     | None => []
     end
  ++ (if buttonIsDisabled then ["InstallButton-button--disabled"] else []).

(** [render()]: [None] is the [null] of the server-side guard. *)
Definition render (props : Props.t) : Eff Effect (option Element) :=
  let addon := Props.addon props in
  let status := Props.status props in
  if AddonTypeName_eqb (Addon.type addon) ADDON_TYPE_OPENSEARCH
     && Props.server props
  then
    (call (log_info "Not rendering opensearch install button on the server") ;;
     ret None)%eff
  else
    let compatible :=
      _getClientCompatibility addon (Props.clientApp props)
        (Props.userAgentInfo props) in
    let buttonIsDisabled := negb compatible in
    let buttonClass := makeClassName (Props.className props) buttonIsDisabled in
    let installURL :=
      findInstallURL (Props.defaultInstallSource props) (Props.location props)
        (Addon.platformFiles addon) (Props.userAgentInfo props) in
    let buttonProps :=
      if negb buttonIsDisabled then
        if includes [DISABLED; ENABLED; INSTALLED] status then
          {| ButtonProps.buttonType := "neutral";
             ButtonProps.data_browsertheme := None;
             ButtonProps.href := installURL;
             ButtonProps.onClick := onClick_uninstallAddon;
             ButtonProps.prependClientApp := None;
             ButtonProps.prependLang := None |}
        else if AddonTypeName_eqb (Addon.type addon) ADDON_TYPE_THEME then
          {| ButtonProps.buttonType := "action";
             ButtonProps.data_browsertheme :=
               Some (JSON_stringify (getThemeData addon));
             ButtonProps.href := installURL;
             ButtonProps.onClick := onClick_installTheme;
             ButtonProps.prependClientApp := None;
             ButtonProps.prependLang := None |}
        else
          {| ButtonProps.buttonType := "action";
             ButtonProps.data_browsertheme := None;
             ButtonProps.href := installURL;
             ButtonProps.onClick :=
               if AddonTypeName_eqb (Addon.type addon) ADDON_TYPE_OPENSEARCH
               then onClick_installOpenSearch
               else onClick_installExtension;
             ButtonProps.prependClientApp := Some false;
             ButtonProps.prependLang := Some false |}
      else
        {| ButtonProps.buttonType := "action";
           ButtonProps.data_browsertheme := None;
           ButtonProps.href := installURL;
           ButtonProps.onClick := onClick_preventDefault;
           ButtonProps.prependClientApp := None;
           ButtonProps.prependLang := None |} in
    ret (Some (if showLoadingAnimation props
               then LoadingAnimation (getButtonText props)
               else ButtonElement buttonClass buttonProps
                      (getIconName props) (getButtonText props))).

(** A click on the rendered button runs the function in its [onClick];
    the result is the handler's return value, [None] for [undefined]. *)
Definition click (onClick : Handler) (props : Props.t) (event : Event)
  : Eff Effect (option bool) :=
  match onClick with
  | onClick_preventDefault => (call preventDefault ;; ret None)%eff
  | onClick_uninstallAddon =>
      (r <- uninstallAddon props event ;; ret (Some r))%eff
  | onClick_installTheme => (installTheme props event ;; ret None)%eff
  | onClick_installOpenSearch =>
      (r <- installOpenSearch props event ;; ret (Some r))%eff
  | onClick_installExtension =>
      (r <- installExtension props event ;; ret (Some r))%eff
  end.

End WithImports.

(** *** The vocabulary of the specification *)

(** [s] has [p] as a prefix. *)
Definition hasPrefix (s p : string) : Prop :=
  exists rest, s = (p ++ rest)%string.

(** An install URL without its query string: [key] has no question mark,
    and the URL is [key] alone or [key], a question mark and a query. *)
Definition withoutQuery (installURL key : string) : Prop :=
  JSString.occurs "?" key = false
  /\ (installURL = key
      \/ exists query, installURL = (key ++ String "?" query)%string).

(** A disabled control: a button with the disabled class whose click
    handler only prevents the default navigation. *)
Definition disabledControl (element : Element) : Prop :=
  exists className buttonProps iconName text,
    element = ButtonElement className buttonProps iconName text
    /\ In "InstallButton-button--disabled" className
    /\ ButtonProps.onClick buttonProps = onClick_preventDefault.

(** The control whose click handler is [h]. *)
Definition controlWithHandler (h : Handler) (element : Element) : Prop :=
  exists className buttonProps iconName text,
    element = ButtonElement className buttonProps iconName text
    /\ ButtonProps.onClick buttonProps = h.

(** Sample imports, add-on, props and click, for concrete runs. *)
Definition sampleIconUrl (addon : Addon.t) : string := "/icons/default-64.png".
Definition sampleTrackingType (type : AddonTypeName) : string := "addon".
Definition sampleEventCategory (type : AddonTypeName) (action : InstallAction)
  : string :=
  match action with
  | INSTALL_ACTION => "AMO Addon Installs"
  | INSTALL_STARTED_ACTION => "AMO Addon Installs Started"
  end.
Definition sampleInstallURL (source : string) (location files agent : JSValue)
  : option string :=
  Some "https://addons.example/files/1/adblock.xpi?src=search".
Definition sampleThemeData (addon : Addon.t) : JSValue := JSObject [].
Definition sampleStringify (v : JSValue) : string := "{}".
Definition sampleCompatibility (compatible : bool) (addon : Addon.t)
  (clientApp : string) (agent : JSValue) : bool := compatible.
Definition sampleGettext (s : string) : string := s.

Definition sampleAddon (type : AddonTypeName) : Addon.t :=
  {| Addon.guid := "adblock@example";
     Addon.name := "Adblock";
     Addon.slug := "adblock";
     Addon.type := type;
     Addon.current_version :=
       Some {| Version.files :=
                 [ {| File.url := "https://addons.example/files/1/adblock.xpi?src=";
                      File.hash := "sha256:0a1b" |} ] |};
     Addon.platformFiles := JSObject [] |}.

Definition sampleProps (type : AddonTypeName) (status : InstallStatus)
  (trigger server : bool) : Props.t :=
  {| Props.addon := sampleAddon type;
     Props.className := None;
     Props.defaultInstallSource := "search";
     Props.location := JSObject [];
     Props.status := status;
     Props._InstallTrigger := trigger;
     Props._window_external := true;
     Props.server := server;
     Props.clientApp := "firefox";
     Props.userAgentInfo := JSObject [] |}.

Definition sampleRender (compatible : bool)
  : Props.t -> Eff Effect (option Element) :=
  render sampleInstallURL sampleThemeData sampleStringify
    (sampleCompatibility compatible) sampleGettext [ADDON_TYPE_THEME].

Definition sampleInstallExtension : Props.t -> Event -> Eff Effect bool :=
  installExtension sampleIconUrl sampleTrackingType sampleEventCategory.

(** An extension that is being downloaded, and one that can be installed
    in a browser that has [InstallTrigger]. *)
Definition downloadingExtension : Props.t :=
  sampleProps ADDON_TYPE_EXTENSION DOWNLOADING true false.

Definition installableExtension : Props.t :=
  sampleProps ADDON_TYPE_EXTENSION UNINSTALLED true false.

End InstallButton.

(** * The other handlers of the collection form

    [onSubmit], [onAddonSelected], [extractId] and what [render] shows of
    the form besides the submit-button policy. *)

Module CollectionManagerHandlers.

Import EffMonad CollectionManager.

(** A localized field of a payload, [{ [siteLang]: value }]. *)
Record Localized : Type := mkLocalized {
  locale : string;
  text : option string
}.

(** The argument of [createCollection]. *)
Module CreateParams.
Record t : Type := mk {
  description : Localized;
  errorHandlerId : string;
  name : Localized;
  slug : string;
  defaultLocale : string;
  includeAddonId : JSValue;
  username : option string
}.
End CreateParams.

(** The argument of [updateCollection]. *)
Module UpdateParams.
Record t : Type := mk {
  description : Localized;
  errorHandlerId : string;
  name : Localized;
  slug : string;
  collectionSlug : string;
  defaultLocale : string;
  filters : JSValue;
  username : string
}.
End UpdateParams.

(** The argument of [addAddonToCollection]. *)
Module AddParams.
Record t : Type := mk {
  addonId : Z;
  collectionId : Z;
  editing : bool;
  errorHandlerId : string;
  filters : JSValue;
  slug : string;
  username : string
}.
End AddParams.

(** [dispatch(creator(params))] for the three action creators of
    [amo/reducers/collections]; the trace records the call with its
    argument, not what the creator makes of it. *)
Inductive Action : Type :=
| createCollection (params : CreateParams.t)
| updateCollection (params : UpdateParams.t)
| addAddonToCollection (params : AddParams.t).

(** A call of these handlers: one on the event, router or error handler,
    or the dispatch of an action. *)
Inductive Call : Type :=
| on (e : Effect)
| dispatch (a : Action).

(** [onSubmit(event)].  [errorHandler_id] is [errorHandler.id] and
    [include_addon_id] is [router.location.query.include_addon_id]. *)
Definition onSubmit (props : Props.t) (errorHandler_id : string)
  (include_addon_id : JSValue) (s : State.t) : Eff Call unit :=
  (call (on preventDefault) ;;
   call (on stopPropagation) ;;
   let name := option_map JSString.trim (State.name s) in
   let slug := option_map JSString.trim (State.slug s) in
   match Props.siteLang props with
   | None | Some EmptyString =>
       throw "The form cannot be submitted without a site language"
   | Some siteLang =>
       match name with
       | None | Some EmptyString =>
           throw "The form cannot be submitted without a name"
       | Some name =>
           match slug with
           | None | Some EmptyString =>
               throw "The form cannot be submitted without a slug"
           | Some slug =>
               if Props.creating props then
                 call (dispatch (createCollection
                   {| CreateParams.description :=
                        mkLocalized siteLang (State.description s);
                      CreateParams.errorHandlerId := errorHandler_id;
                      CreateParams.name := mkLocalized siteLang (Some name);
                      CreateParams.slug := slug;
                      CreateParams.defaultLocale := siteLang;
                      CreateParams.includeAddonId := include_addon_id;
                      CreateParams.username := Props.currentUsername props |}))
               else
                 match Props.collection props with
                 | None =>
                     throw "The form cannot be submitted without a collection"
                 | Some collection =>
                     call (dispatch (updateCollection
                       {| UpdateParams.description :=
                            mkLocalized siteLang (State.description s);
                          UpdateParams.errorHandlerId := errorHandler_id;
                          UpdateParams.name := mkLocalized siteLang (Some name);
                          UpdateParams.slug := slug;
                          UpdateParams.collectionSlug :=
                            Collection.slug collection;
                          UpdateParams.defaultLocale :=
                            Collection.defaultLocale collection;
                          UpdateParams.filters := Props.filters props;
                          UpdateParams.username :=
                            Collection.authorUsername collection |}))
                 end
           end
       end
   end)%eff.

(** [onAddonSelected(suggestion)]: [addonId] is [suggestion.addonId], a
    number or nothing; the result is the buffer after [setState]. *)
Definition onAddonSelected (props : Props.t) (errorHandler_id : string)
  (addonId : option Z) (s : State.t) : Eff Call State.t :=
  match addonId with
  | None | Some 0%Z => throw "addonId cannot be empty"
  | Some addonId =>
      match Props.collection props with
      | None =>
          throw "A collection must be loaded before you can add an add-on to it"
      | Some collection =>
          match Props.currentUsername props with
          | None | Some EmptyString =>
              throw "Cannot add to collection because you are not signed in"
          | Some currentUsername =>
              (call (dispatch (addAddonToCollection
                 {| AddParams.addonId := addonId;
                    AddParams.collectionId := Collection.id collection;
                    AddParams.editing := true;
                    AddParams.errorHandlerId := errorHandler_id;
                    AddParams.filters := Props.filters props;
                    AddParams.slug := Collection.slug collection;
                    AddParams.username := currentUsername |})) ;;
               ret (State.setAddonAddedStatus
                      (Some ADDON_ADDED_STATUS_PENDING) s))%eff
          end
      end
  end.

(** [extractId(ownProps)], the identifier of the form's error handler. *)
Definition extractId (collection : option Collection.t) : string :=
  "collection-" ++ match collection with
                   | Some c => Collection.slug c
                   | None => EmptyString
                   end.

(** What [render] decides about the form: whether the name and the
    description inputs are shown (or loading placeholders in their
    place), the slug input, which is always rendered, whether the success
    notice and the add-on search are shown, and the state and text of the
    two buttons. *)
Module FormView.
Record t : Type := mk {
  nameInputShown : bool;
  descriptionInputShown : bool;
  slugInputShown : bool;
  noticeShown : bool;
  searchShown : bool;
  cancelDisabled : bool;
  submitDisabled : bool;
  submitText : string
}.
End FormView.

Definition render (gettext : string -> string) (props : Props.t)
  (s : State.t) : FormView.t :=
  {| FormView.nameInputShown :=
       match Props.collection props with
       | Some _ => true
       | None => Props.creating props
       end;
     FormView.descriptionInputShown :=
       match Props.collection props with
       | Some _ => true
       | None => Props.creating props
       end;
     FormView.slugInputShown := true;
     FormView.noticeShown :=
       match State.addonAddedStatus s with
       | Some ADDON_ADDED_STATUS_SUCCESS => true
       | _ => false
       end;
     FormView.searchShown := negb (Props.creating props);
     FormView.cancelDisabled := formIsDisabled props;
     FormView.submitDisabled := isSubmitDisabled props s;
     FormView.submitText :=
       if Props.creating props
       then gettext "Create collection"
       else gettext "Save collection" |}.

(** *** Vocabulary *)

(** Every character of [s] satisfies [p]. *)
Fixpoint allChars (p : ascii -> bool) (s : string) : bool :=
  match s with
  | EmptyString => true
  | String c r => p c && allChars p r
  end.

(** The characters of a derived slug. *)
Definition isSlugChar (c : ascii) : bool :=
  JSString.isAlphaNumeric c || Ascii.eqb c "-".

(** The added-status of a buffer. *)
Definition statusOf (x : World) : option AddonAddedStatusType :=
  State.addonAddedStatus (state (component x)).

(** The invariant of the timer table of a form: pending timers carry
    distinct positive identifiers below the next one and are due within
    the reset delay, and [this.timeout] is unset or such an identifier. *)
Definition timersWellFormed (x : World) : Prop :=
  (1 <= Window.nextId (window x))%N
  /\ Forall (fun t => (1 <= fst t < Window.nextId (window x))%N
                      /\ (snd t <= Window.now (window x) + MESSAGE_RESET_TIME)%N)
       (Window.pending (window x))
  /\ NoDup (map fst (Window.pending (window x)))
  /\ match timeout (component x) with
     | None => True
     | Some id => (1 <= id < Window.nextId (window x))%N
     end.

(** Every timer set so far is pending, was cleared, or has called back
    once. *)
Definition callsBounded (x : World) : Prop :=
  (N.of_nat (List.length (calls x))
   + N.of_nat (List.length (Window.pending (window x)))
   + 1 <= Window.nextId (window x))%N.

(** The only timer that may be pending is the one [this.timeout]
    remembers. *)
Definition onlyRememberedTimer (x : World) : Prop :=
  Window.pending (window x) = []
  \/ exists id due,
       Window.pending (window x) = [(id, due)]
       /\ timeout (component x) = Some id
       /\ id <> 0%N.

(** A collection whose stored name holds an entity, and a decoder for
    it. *)
Definition entityCollection : Collection.t :=
  {| Collection.id := 9;
     Collection.authorUsername := "mozilla";
     Collection.defaultLocale := "en-US";
     Collection.description := None;
     Collection.name := "Tom &amp; Jerry";
     Collection.slug := "tom-jerry" |}.

Definition entityProps : Props.t :=
  {| Props.collection := Some entityCollection;
     Props.creating := false;
     Props.filters := JSObject [];
     Props.clientApp := Some "firefox";
     Props.currentUsername := Some "mozilla";
     Props.hasAddonBeenAdded := false;
     Props.isCollectionBeingModified := false;
     Props.siteLang := Some "en-US" |}.

Definition decodeAmpersand (s : option string) : option string :=
  match s with
  | Some v => if String.eqb v "Tom &amp; Jerry" then Some "Tom & Jerry"
              else Some v
  | None => Some EmptyString
  end.

(** The props of a form that is still waiting for its collection. *)
Definition loadingProps : Props.t :=
  {| Props.collection := None;
     Props.creating := false;
     Props.filters := JSObject [];
     Props.clientApp := Some "firefox";
     Props.currentUsername := Some "mozilla";
     Props.hasAddonBeenAdded := false;
     Props.isCollectionBeingModified := false;
     Props.siteLang := Some "en-US" |}.

(** The sample form one second after an add-on has been added. *)
Definition afterOneAdd : World :=
  run noDecoding (mount noDecoding (sampleProps false false))
    [Receive (sampleProps false true); Elapse 1000].

End CollectionManagerHandlers.

(** * Counting the calls of a click on the install button *)

Module InstallButtonCalls.

Import InstallButton.

Definition isPreventDefault (e : Effect) : bool :=
  match e with
  | preventDefault => true
  | _ => false
  end.

Definition isTrackingEvent (e : Effect) : bool :=
  match e with
  | tracking_sendEvent _ _ _ => true
  | _ => false
  end.

(** How often a trace makes a call of some kind. *)
Definition count (kind : Effect -> bool) (trace : list Effect) : nat :=
  List.length (filter kind trace).

(** The handlers that install through the browser. *)
Definition installsThroughBrowser (h : Handler) : bool :=
  match h with
  | onClick_installOpenSearch | onClick_installExtension => true
  | _ => false
  end.

Definition isInstallExtension (h : Handler) : bool :=
  match h with
  | onClick_installExtension => true
  | _ => false
  end.

End InstallButtonCalls.

(** * Properties of the string primitives *)

Module JSStringFacts.

Import JSString.

Lemma split_not_nil (sep : ascii -> bool) (s : string) : split sep s <> [].
Proof.
  destruct s as [|c r]; simpl; [discriminate|].
  destruct (sep c); [discriminate|].
  destruct (split sep r); discriminate.
Qed.

Lemma filter_consHead (c : ascii) (h : string) (t : list string) :
  filter nonEmpty (consHead c (h :: t)) = String c h :: filter nonEmpty t.
Proof. reflexivity. Qed.

(** The first segment of a split has no separator in it, and the string is
    that segment alone or that segment, one separator and the rest. *)
Lemma split_head (sep : ascii -> bool) (s : string) :
  let key := hd EmptyString (split sep s) in
  (forall c, occurs c key = true -> sep c = false)
  /\ (s = key \/ exists c rest, sep c = true /\ s = (key ++ String c rest)%string).
Proof.
  induction s as [|c r IH]; simpl.
  - split; [discriminate | left; reflexivity].
  - destruct (sep c) eqn:Ec; simpl.
    + split; [discriminate | right; exists c, r; auto].
    + destruct IH as [IH1 IH2].
      pose proof (split_not_nil sep r) as Hne.
      destruct (split sep r) as [|h t]; [contradiction|]. simpl in *.
      split.
      * intros d Hd. apply orb_true_iff in Hd. destruct Hd as [Hd|Hd].
        -- apply Ascii.eqb_eq in Hd. subst d. exact Ec.
        -- apply IH1; exact Hd.
      * destruct IH2 as [E | (d & rest & Hd & E)].
        -- left; rewrite E at 1; reflexivity.
        -- right; exists d, rest; split; [exact Hd|]. rewrite E at 1; reflexivity.
Qed.

End JSStringFacts.

(** * Properties of the collection form *)

Module CollectionManagerFacts.

Import CollectionManager JSStringFacts.

(** ** Slug derivation *)

Lemma splitOnRuns_not_nil sep b s : splitOnRuns sep b s <> [].
Proof.
  revert b; induction s as [|c r IH]; intro b; simpl; [discriminate|].
  destruct (sep c).
  - destruct b; [apply IH | discriminate].
  - destruct (splitOnRuns sep false r); discriminate.
Qed.

(** Splitting on single separators and splitting on maximal runs leave
    the same non-empty segments. *)
Lemma splitOnRuns_split sep s :
  (forall b, filter JSString.nonEmpty (splitOnRuns sep b s)
             = filter JSString.nonEmpty (JSString.split sep s))
  /\ hd EmptyString (splitOnRuns sep false s)
     = hd EmptyString (JSString.split sep s)
  /\ filter JSString.nonEmpty (tl (splitOnRuns sep false s))
     = filter JSString.nonEmpty (tl (JSString.split sep s)).
Proof.
  induction s as [|c r (IHa & IHh & IHt)]; simpl.
  - repeat split; reflexivity.
  - destruct (sep c) eqn:Ec.
    + repeat split; simpl; auto.
      intros [|]; simpl; apply IHa.
    + pose proof (splitOnRuns_not_nil sep false r) as N1.
      pose proof (split_not_nil sep r) as N2.
      destruct (splitOnRuns sep false r) as [|h1 t1]; [contradiction|].
      destruct (JSString.split sep r) as [|h2 t2]; [contradiction|].
      simpl in IHh, IHt. subst h2.
      repeat split.
      * intros _. rewrite !filter_consHead. f_equal. exact IHt.
      * simpl. exact IHt.
Qed.

Lemma slugBySpec_slugOfName s : slugBySpec s = slugOfName s.
Proof.
  unfold slugBySpec, slugOfName. f_equal.
  apply (proj1 (splitOnRuns_split _ s)).
Qed.

Lemma customSlug_sticky props s target :
  State.customSlug s = true ->
  State.customSlug (onTextInput props s target) = true.
Proof.
  intros H. unfold onTextInput.
  destruct (Target.value target) as [v|]; [|exact H].
  rewrite H. rewrite andb_false_r.
  destruct (Target.name target); simpl;
    repeat match goal with |- context [if ?b then _ else _] => destruct b end;
    simpl; auto.
Qed.

Lemma name_edit_keeps_custom_slug props s v :
  State.customSlug s = true ->
  State.slug (onTextInput props s (Target.mk name_input v)) = State.slug s.
Proof.
  intros H. unfold onTextInput. simpl.
  destruct v as [v|]; [|reflexivity].
  rewrite H. rewrite andb_false_r. simpl. rewrite andb_false_r. reflexivity.
Qed.

(** ** The submit-button policy *)

Lemma opt_string_eqb_eq a b : opt_string_eqb a b = true <-> a = b.
Proof.
  destruct a as [x|], b as [y|]; simpl; split; intros H;
    try discriminate; try reflexivity.
  - apply String.eqb_eq in H. congruence.
  - inversion H. apply String.eqb_refl.
Qed.

Lemma length_zero (s : string) : Nat.eqb (String.length s) 0 = true <-> s = EmptyString.
Proof. destruct s; simpl; split; intros H; try discriminate; reflexivity. Qed.

Lemma isBlank_blank field : isBlank field = true <-> blank field.
Proof.
  destruct field as [v|]; unfold isBlank, blank; [|split; auto].
  rewrite negb_true_iff, andb_false_iff, negb_false_iff, length_zero.
  split.
  - intros [H|H]; [|exact H]. destruct v; [reflexivity|discriminate].
  - intros H; right; exact H.
Qed.

Lemma isBlank_not_blank field : isBlank field = false <-> ~ blank field.
Proof.
  rewrite <- isBlank_blank. destruct (isBlank field); split; intros H.
  - discriminate.
  - exfalso; apply H; reflexivity.
  - intros H'; discriminate.
  - reflexivity.
Qed.

Lemma formIsUnchanged_bufferUnchanged props s :
  formIsUnchanged props s = true <-> bufferUnchanged props s.
Proof.
  unfold formIsUnchanged, bufferUnchanged.
  destruct (Props.collection props) as [c|].
  - rewrite !andb_true_iff, orb_true_iff, andb_true_iff, !opt_string_eqb_eq,
      negb_true_iff.
    split.
    + intros [[Hn Hs] Hd]. exists c. repeat split; auto.
      destruct Hd as [Hd|[Hc Hd]]; [left; congruence|].
      destruct (State.description s) as [[|a d]|]; simpl in Hd;
        try discriminate; [right; auto | left; congruence].
    + intros (c' & Hc & Hn & Hs & Hd). inversion Hc; subst c'.
      repeat split; auto.
      destruct Hd as [Hd|[H1 H2]]; [left; congruence|].
      right; split; [exact H1|]. rewrite H2. reflexivity.
  - split; [discriminate|]. intros (c & Hc & _). discriminate.
Qed.

Lemma formIsDisabled_iff props :
  formIsDisabled props = true
  <-> (Props.collection props = None /\ Props.creating props = false)
      \/ Props.isCollectionBeingModified props = true.
Proof.
  unfold formIsDisabled. rewrite orb_true_iff, andb_true_iff, negb_true_iff.
  destruct (Props.collection props); intuition discriminate.
Qed.

(** C3, as the form implements it.  The submit button is disabled exactly
    when no collection is loaded outside create mode, or a modification is
    in flight, or the buffer is unchanged, or the name is blank, or the
    slug is blank; the buffer counts as unchanged when its name and slug
    are the persisted ones and its description is the persisted one or is
    empty while the persisted one is [null].  With the form not disabled
    and name and slug not blank, a name or a slug that differs from the
    persisted one, or a non-blank description that does, enables the
    button. *)
Theorem submit_disabled_policy :
  (forall props s,
      isSubmitDisabled props s = true
      <-> (Props.collection props = None /\ Props.creating props = false)
          \/ Props.isCollectionBeingModified props = true
          \/ bufferUnchanged props s
          \/ blank (State.name s)
          \/ blank (State.slug s))
  /\ (forall props s,
      formIsDisabled props = false ->
      ~ blank (State.name s) ->
      ~ blank (State.slug s) ->
      (forall c, Props.collection props = Some c ->
                 State.name s <> Some (Collection.name c)
                 \/ State.slug s <> Some (Collection.slug c)
                 \/ (~ blank (State.description s)
                     /\ State.description s <> Collection.description c)) ->
      isSubmitDisabled props s = false).
Proof.
  split.
  - intros props s. unfold isSubmitDisabled, isNameBlank, isSlugBlank.
    rewrite !orb_true_iff, formIsDisabled_iff,
      formIsUnchanged_bufferUnchanged, !isBlank_blank.
    tauto.
  - intros props s Hd Hn Hs Hch.
    unfold isSubmitDisabled, isNameBlank, isSlugBlank.
    rewrite Hd.
    rewrite (proj2 (isBlank_not_blank _) Hn), (proj2 (isBlank_not_blank _) Hs).
    rewrite !orb_false_r. simpl.
    destruct (formIsUnchanged props s) eqn:E; [|reflexivity].
    apply formIsUnchanged_bufferUnchanged in E.
    destruct E as (c & Hc & En & Es & Ed).
    destruct (Hch c Hc) as [H|[H|[Hb H]]]; try contradiction.
    destruct Ed as [Ed|[_ Ed]]; [contradiction|].
    exfalso. apply Hb. rewrite Ed. reflexivity.
Qed.

(** C3 as stated fails: with a persisted [null] description and an empty
    description in the buffer, the name and slug being the persisted ones,
    the button is disabled although the buffer does not hold the persisted
    values and none of the other conditions holds. *)
Lemma submit_disabled_on_emptied_description :
  ~ (isSubmitDisabled (sampleProps false false) emptiedDescription = true
     <-> (Props.collection (sampleProps false false) = None
          /\ Props.creating (sampleProps false false) = false)
         \/ Props.isCollectionBeingModified (sampleProps false false) = true
         \/ bufferEqualsPersisted (sampleProps false false) emptiedDescription
         \/ blank (State.name emptiedDescription)
         \/ blank (State.slug emptiedDescription)).
Proof.
  intros [H _].
  destruct (H eq_refl) as [[E _]|[E|[E|[E|E]]]]; try discriminate E.
  destruct E as (c & Hc & _ & _ & Hd).
  inversion Hc; subst c. discriminate Hd.
Qed.

(** ** Reception of props *)

Section Reception.

Variable decodeHtmlEntities : option string -> option string.

Local Abbreviation propsToState := (propsToState decodeHtmlEntities).
Local Abbreviation componentWillReceiveProps :=
  (componentWillReceiveProps decodeHtmlEntities).
Local Abbreviation receiveProps := (receiveProps decodeHtmlEntities).
Local Abbreviation step := (step decodeHtmlEntities).
Local Abbreviation run := (run decodeHtmlEntities).

Lemma edits_setAddonAddedStatus v s :
  edits (State.setAddonAddedStatus v s) = edits s.
Proof. reflexivity. Qed.

Lemma opt_Z_eqb_eq a b : opt_Z_eqb a b = true <-> a = b.
Proof.
  destruct a as [x|], b as [y|]; simpl; split; intros H;
    try discriminate; try reflexivity.
  - apply Z.eqb_eq in H. congruence.
  - inversion H. apply Z.eqb_refl.
Qed.

Lemma receiveProps_state this newProps w :
  state (fst (receiveProps this newProps w))
  = state (fst (componentWillReceiveProps this newProps w)).
Proof.
  unfold CollectionManager.receiveProps.
  destruct (componentWillReceiveProps this newProps w); reflexivity.
Qed.

(** The edits after the hook: those of the incoming collection when it has
    another identifier, the current ones otherwise. *)
Lemma componentWillReceiveProps_edits this newProps w :
  edits (state (fst (componentWillReceiveProps this newProps w)))
  = match Props.collection newProps with
    | Some c =>
        if opt_Z_eqb (Some (Collection.id c)) (currentId this)
        then edits (state this)
        else edits (propsToState newProps)
    | None => edits (state this)
    end.
Proof.
  unfold CollectionManager.componentWillReceiveProps, currentId.
  set (s1 := match Props.collection newProps with
             | Some c => _ | None => _ end).
  assert (E : edits s1
              = match Props.collection newProps with
                | Some c =>
                    if opt_Z_eqb (Some (Collection.id c))
                         (option_map Collection.id (Props.collection (props this)))
                    then edits (state this)
                    else edits (propsToState newProps)
                | None => edits (state this)
                end).
  { unfold s1. destruct (Props.collection newProps) as [c|]; [|reflexivity].
    destruct (opt_Z_eqb _ _); reflexivity. }
  rewrite <- E.
  destruct (Props.hasAddonBeenAdded newProps), (Props.hasAddonBeenAdded (props this));
    simpl; reflexivity.
Qed.

Lemma receiveProps_props this newProps w :
  props (fst (receiveProps this newProps w)) = newProps.
Proof.
  unfold CollectionManager.receiveProps.
  destruct (componentWillReceiveProps this newProps w); reflexivity.
Qed.

Lemma fire_keeps due : forall this log,
  edits (state (fst (fire due this log))) = edits (state this)
  /\ props (fst (fire due this log)) = props this.
Proof.
  induction due as [|[i t] rest IH]; intros this log; simpl; [auto|].
  destruct (IH (resetMessageStatus this) (log ++ [(t, mounted this)]))
    as [H1 H2].
  rewrite H1, H2. split; reflexivity.
Qed.

Lemma step_same_collection x e i :
  currentId (component x) = Some i ->
  sameCollectionStep i e ->
  edits (state (component (step x e))) = edits (state (component x))
  /\ currentId (component (step x e)) = Some i.
Proof.
  intros Hi He. destruct e as [newProps|target|dt|]; simpl.
  - destruct He as (c & Hc & Hid).
    destruct (mounted (component x)); [|auto].
    pose proof (receiveProps_state (component x) newProps (window x)) as Hs.
    pose proof (receiveProps_props (component x) newProps (window x)) as Hp.
    pose proof (componentWillReceiveProps_edits (component x) newProps (window x)) as He.
    destruct (receiveProps (component x) newProps (window x)) as [this' w'].
    simpl in *. rewrite Hs, He, Hc, Hi, Hid.
    split.
    + simpl. rewrite Z.eqb_refl. reflexivity.
    + unfold currentId. rewrite Hp, Hc. simpl. congruence.
  - contradiction.
  - pose proof (fire_keeps
                  (Window.dueAt (Window.now (window x) + dt) (window x))
                  (component x) (calls x)) as [H1 H2].
    destruct (fire _ (component x) (calls x)) as [this' log']. simpl in *.
    split; [exact H1|]. unfold currentId in *. rewrite H2. exact Hi.
  - destruct (mounted (component x)); simpl; auto.
Qed.

(** Along a session step the slug stays marked as edited by hand, and
    the session stays on its collection. *)
Lemma step_session x e i :
  currentId (component x) = i ->
  State.customSlug (state (component x)) = true ->
  sessionStep i e ->
  currentId (component (step x e)) = i
  /\ State.customSlug (state (component (step x e))) = true.
Proof.
  intros Hi Hs He. destruct e as [newProps|target|dt|]; simpl.
  - simpl in He.
    destruct (mounted (component x)); [|auto].
    pose proof (receiveProps_state (component x) newProps (window x)) as Hst.
    pose proof (receiveProps_props (component x) newProps (window x)) as Hp.
    pose proof (componentWillReceiveProps_edits (component x) newProps (window x)) as Hed.
    destruct (receiveProps (component x) newProps (window x)) as [this' w'].
    simpl in *. split.
    + unfold currentId. rewrite Hp. exact He.
    + rewrite <- Hst in Hed.
      assert (E : edits (state this') = edits (state (component x))).
      { rewrite Hed. destruct (Props.collection newProps) as [c|]; [|reflexivity].
        simpl in He. rewrite Hi, <- He. simpl. rewrite Z.eqb_refl. reflexivity. }
      unfold edits in E. inversion E. congruence.
  - destruct (mounted (component x)); simpl; [|auto].
    split; [exact Hi | apply customSlug_sticky; exact Hs].
  - pose proof (fire_keeps
                  (Window.dueAt (Window.now (window x) + dt) (window x))
                  (component x) (calls x)) as [H1 H2].
    destruct (fire _ (component x) (calls x)) as [this' log']. simpl in *.
    split; [unfold currentId in *; rewrite H2; exact Hi|].
    unfold edits in H1. inversion H1. congruence.
  - destruct (mounted (component x)); simpl; auto.
Qed.

Lemma run_session steps : forall x i,
  currentId (component x) = i ->
  State.customSlug (state (component x)) = true ->
  Forall (sessionStep i) steps ->
  State.customSlug (state (component (run x steps))) = true.
Proof.
  induction steps as [|e rest IH]; intros x i Hi Hs Hall; [exact Hs|].
  apply Forall_cons_iff in Hall. destruct Hall as [He Hrest].
  destruct (step_session x e i Hi Hs He) as [H1 H2].
  unfold CollectionManager.run in *. simpl. apply (IH (step x e) i H1 H2 Hrest).
Qed.

(** The slug stays unmarked as long as no input customises it. *)
Lemma customSlug_stays_false props s target :
  State.customSlug s = false ->
  notCustomising (props, target) ->
  State.customSlug (onTextInput props s target) = false.
Proof.
  intros Hs Hn. unfold notCustomising in Hn. simpl in Hn.
  unfold onTextInput.
  destruct (Target.value target) as [v|] eqn:Ev; [|exact Hs].
  destruct (Target.name target) eqn:En; simpl; rewrite ?Hs;
    try rewrite (Hn eq_refl v eq_refl);
    destruct (Props.creating props); simpl; exact Hs.
Qed.

Lemma customSlug_stays_false_many (earlier : list (Props.t * Target.t)) :
  forall s,
    State.customSlug s = false ->
    Forall notCustomising earlier ->
    State.customSlug
      (fold_left (fun s e => onTextInput (fst e) s (snd e)) earlier s) = false.
Proof.
  induction earlier as [|[p t] l IH]; intros s Hs Hall; [exact Hs|].
  apply Forall_cons_iff in Hall. destruct Hall as [H1 H2].
  simpl. apply IH; [|exact H2]. apply customSlug_stays_false; assumption.
Qed.

(** C1.  In create mode, a text input on the name field while the slug
    has not been edited by hand stores the name and recomputes the slug:
    the trimmed name split on every maximal run of non-alphanumeric
    characters, the non-empty segments joined with a hyphen (the name
    [Foo Bar] gives the slug [Foo-Bar]).  Once a text input on the slug
    field has carried a value that is not empty when trimmed, no later
    name input changes the slug, whatever happens to the form in between
    (text inputs, receptions of props, timers) short of the arrival of
    another collection, which starts a new buffer (as does a cancel that
    succeeds, which resets the buffer to the loaded collection).  Until
    such an input
    on the slug field the slug stays unmarked, so that every name input,
    not only the first, recomputes the slug. *)
Theorem slug_follows_name_until_slug_is_edited :
  (forall props s value,
      Props.creating props = true ->
      State.customSlug s = false ->
      let s' := onTextInput props s (Target.mk name_input (Some value)) in
      State.slug s' = Some (slugBySpec (JSString.trim value))
      /\ State.name s' = Some value)
  /\ (forall props s,
      Props.creating props = true ->
      State.customSlug s = false ->
      State.slug (onTextInput props s (Target.mk name_input (Some "Foo Bar")))
      = Some "Foo-Bar")
  /\ (forall x value steps nameValue,
      mounted (component x) = true ->
      Props.creating (props (component x)) = true ->
      JSString.trim value <> EmptyString ->
      Forall (sessionStep (currentId (component x))) steps ->
      let x1 := step x (Input (Target.mk slug_input (Some value))) in
      let x2 := run x1 steps in
      State.slug (state (component
                           (step x2 (Input (Target.mk name_input nameValue)))))
      = State.slug (state (component x2)))
  /\ (forall props s earlier value,
      Props.creating props = true ->
      State.customSlug s = false ->
      Forall notCustomising earlier ->
      let s0 := fold_left (fun s e => onTextInput (fst e) s (snd e)) earlier s in
      let s' := onTextInput props s0 (Target.mk name_input (Some value)) in
      State.slug s' = Some (slugBySpec (JSString.trim value))
      /\ State.name s' = Some value
      /\ State.customSlug s' = false).
Proof.
  split; [|split; [|split]].
  4:{ intros props s earlier value Hc Hs Hall s0 s'.
      pose proof (customSlug_stays_false_many earlier s Hs Hall) as H0.
      fold s0 in H0. unfold s', onTextInput. simpl.
      rewrite Hc, H0. simpl. rewrite slugBySpec_slugOfName.
      repeat split. exact H0. }
  - intros props s value Hc Hs. unfold onTextInput. simpl.
    rewrite Hc, Hs. simpl. rewrite slugBySpec_slugOfName. split; reflexivity.
  - intros props s Hc Hs. unfold onTextInput. simpl.
    rewrite Hc, Hs. reflexivity.
  - intros x value steps nameValue Hm Hc Hv Hall x1 x2.
    assert (H1 : State.customSlug (state (component x1)) = true).
    { unfold x1. simpl. rewrite Hm. simpl. unfold onTextInput. simpl.
      rewrite Hc. simpl.
      destruct (String.eqb (JSString.trim value) EmptyString) eqn:E;
        [apply String.eqb_eq in E; contradiction | reflexivity]. }
    assert (Hid : currentId (component x1) = currentId (component x)).
    { unfold x1. simpl. rewrite Hm. reflexivity. }
    pose proof (run_session steps x1 _ Hid H1 Hall) as H2. fold x2 in H2.
    simpl. destruct (mounted (component x2)); [|reflexivity].
    simpl. apply name_edit_keeps_custom_slug. exact H2.
Qed.

(** C5.  Receiving props whose collection has the identifier of the
    collection being edited leaves the in-progress edits as they are;
    receiving a collection with another identifier resets them to the
    decoded name and description and the slug of that collection, with
    the slug no longer marked as edited by hand; the edits change on reception only
    in that second case; and along any sequence of steps that brings no
    other collection the edits stay unchanged. *)
Theorem edits_reset_only_for_another_collection :
  (forall this newProps w c,
      Props.collection newProps = Some c ->
      currentId this = Some (Collection.id c) ->
      edits (state (fst (receiveProps this newProps w))) = edits (state this))
  /\ (forall this newProps w c,
      Props.collection newProps = Some c ->
      currentId this <> Some (Collection.id c) ->
      edits (state (fst (receiveProps this newProps w)))
      = (decodeHtmlEntities (Some (Collection.name c)),
         decodeHtmlEntities (Collection.description c),
         Some (Collection.slug c),
         false))
  /\ (forall this newProps w,
      edits (state (fst (receiveProps this newProps w))) <> edits (state this) ->
      exists c, Props.collection newProps = Some c
                /\ currentId this <> Some (Collection.id c))
  /\ (forall steps x i,
      currentId (component x) = Some i ->
      Forall (sameCollectionStep i) steps ->
      edits (state (component (run x steps))) = edits (state (component x))).
Proof.
  repeat split.
  - intros this newProps w c Hc Hi.
    rewrite receiveProps_state, componentWillReceiveProps_edits, Hc, Hi.
    simpl. rewrite Z.eqb_refl. reflexivity.
  - intros this newProps w c Hc Hi.
    rewrite receiveProps_state, componentWillReceiveProps_edits, Hc.
    destruct (opt_Z_eqb _ _) eqn:E;
      [apply opt_Z_eqb_eq in E; congruence|].
    unfold edits, CollectionManager.propsToState. rewrite Hc. reflexivity.
  - intros this newProps w.
    rewrite receiveProps_state, componentWillReceiveProps_edits.
    destruct (Props.collection newProps) as [c|]; [|congruence].
    destruct (opt_Z_eqb _ _) eqn:E; [congruence|].
    intros _. exists c. split; [reflexivity|].
    intros H. rewrite H in E. simpl in E. rewrite Z.eqb_refl in E. discriminate.
  - induction steps as [|e rest IH]; intros x i Hi Hall; [reflexivity|].
    inversion Hall as [|? ? He Hrest]; subst.
    destruct (step_same_collection x e i Hi He) as [H1 H2].
    unfold CollectionManager.run in *. simpl.
    rewrite (IH (step x e) i H2 Hrest). exact H1.
Qed.

(** ** The added-status timer *)

(** When the added flag goes from false to true, the status becomes
    success and one timer is set, due [MESSAGE_RESET_TIME] later, whose
    identifier is kept in [this.timeout]. *)
Lemma added_transition_sets_timer this newProps w :
  Props.hasAddonBeenAdded (props this) = false ->
  Props.hasAddonBeenAdded newProps = true ->
  let r := componentWillReceiveProps this newProps w in
  State.addonAddedStatus (state (fst r)) = Some ADDON_ADDED_STATUS_SUCCESS
  /\ timeout (fst r) = Some (Window.nextId w)
  /\ Window.pending (snd r)
     = Window.pending w ++ [(Window.nextId w, (Window.now w + 5000)%N)].
Proof.
  intros H0 H1. unfold CollectionManager.componentWillReceiveProps.
  rewrite H0, H1. simpl. repeat split.
Qed.

(** Any other reception sets no timer. *)
Lemma no_transition_no_timer this newProps w :
  (Props.hasAddonBeenAdded (props this) = true
   \/ Props.hasAddonBeenAdded newProps = false) ->
  snd (componentWillReceiveProps this newProps w) = w
  /\ timeout (fst (componentWillReceiveProps this newProps w)) = timeout this.
Proof.
  intros H. unfold CollectionManager.componentWillReceiveProps.
  destruct (Props.hasAddonBeenAdded (props this)),
    (Props.hasAddonBeenAdded newProps); simpl; auto;
    destruct H; discriminate.
Qed.

(** After a single add, the status is still success just before the
    delay has passed and is reset, by one call, when it has. *)
Lemma single_add_resets_after_delay :
  let added := [Receive (sampleProps false true)] in
  let x := mount decodeHtmlEntities (sampleProps false false) in
  State.addonAddedStatus (state (component (run x (added ++ [Elapse 4999]))))
  = Some ADDON_ADDED_STATUS_SUCCESS
  /\ calls (run x (added ++ [Elapse 4999])) = []
  /\ State.addonAddedStatus (state (component (run x (added ++ [Elapse 5000]))))
     = None
  /\ calls (run x (added ++ [Elapse 5000; Elapse 5000])) = [(5000%N, true)].
Proof. repeat split. Qed.

(** After a single add, unmounting before the delay has passed cancels
    the timer: the reset is never called. *)
Lemma single_add_cancelled_on_unmount :
  let x := mount decodeHtmlEntities (sampleProps false false) in
  let x' := run x [Receive (sampleProps false true); Elapse 4999; Unmount;
                   Elapse 5000] in
  calls x' = [] /\ Window.pending (window x') = [].
Proof. split; reflexivity. Qed.

(** C6, at the failing run.  Two add-ons are added one second apart: the
    second reception overwrites [this.timeout] while the first timer is
    still pending.  The form is unmounted one second later, which clears
    the second timer only, and the first timer then calls
    [resetMessageStatus] at time 5000 on the unmounted form. *)
Theorem first_timer_survives_unmount :
  let x := run (mount decodeHtmlEntities (sampleProps false false))
             (firstn 6 twoAddsThenUnmount) in
  let x' := run (mount decodeHtmlEntities (sampleProps false false))
              twoAddsThenUnmount in
  mounted (component x) = false
  /\ Window.now (window x) = 2000%N
  /\ Window.pending (window x) = [(1%N, 5000%N)]
  /\ calls x' = [(5000%N, false)].
Proof. repeat split. Qed.

End Reception.

(** ** Cancelling *)

Section Cancel.

Variable decodeHtmlEntities : option string -> option string.
Variable convertFiltersToQueryParams : JSValue -> JSValue.

Local Abbreviation onCancel :=
  (onCancel decodeHtmlEntities convertFiltersToQueryParams).


End Cancel.

(** ** Concrete instances *)

(** C1 at the name [Foo Bar], and at a slug typed by hand before a
    description is typed, time passes and the name is changed again. *)
Lemma slug_follows_name_witness :
  (Props.creating newCollectionProps = true
   /\ State.customSlug emptyBuffer = false
   /\ State.slug
        (onTextInput newCollectionProps emptyBuffer
           (Target.mk name_input (Some "Foo Bar")))
      = Some "Foo-Bar")
  /\ (JSString.trim "my-tools" <> EmptyString
      /\ Forall (sessionStep None) typingSession
      /\ State.slug
           (state (component
                     (step noDecoding
                        (run noDecoding
                           (step noDecoding (mount noDecoding newCollectionProps)
                              (Input (Target.mk slug_input (Some "my-tools"))))
                           typingSession)
                        (Input (Target.mk name_input (Some "Other tools"))))))
         = Some "my-tools")
  /\ (Forall notCustomising typingFooBar
      /\ State.slug
           (onTextInput newCollectionProps
              (fold_left (fun s e => onTextInput (fst e) s (snd e))
                 typingFooBar emptyBuffer)
              (Target.mk name_input (Some "Foo Bar")))
         = Some "Foo-Bar").
Proof.
  assert (F : Forall (sessionStep None) typingSession).
  { repeat constructor. }
  assert (G : Forall notCustomising typingFooBar).
  { repeat constructor; intros E; discriminate E. }
  split; [|split].
  3:{ split; [exact G|].
      exact (proj1 (proj2 (proj2 (proj2
               (slug_follows_name_until_slug_is_edited noDecoding)))
               newCollectionProps emptyBuffer typingFooBar "Foo Bar"
               eq_refl eq_refl G)). }
  - split; [reflexivity|]. split; [reflexivity|].
    apply (proj1 (proj2 (slug_follows_name_until_slug_is_edited noDecoding))
             newCollectionProps emptyBuffer); reflexivity.
  - split; [discriminate|]. split; [exact F|].
    rewrite (proj1 (proj2 (proj2
               (slug_follows_name_until_slug_is_edited noDecoding)))
               (mount noDecoding newCollectionProps) "my-tools"
               typingSession (Some "Other tools") eq_refl eq_refl
               ltac:(discriminate) F).
    reflexivity.
Defined.

(** C3 at the sample collection with a changed name. *)
Lemma submit_disabled_policy_witness :
  formIsDisabled (sampleProps false false) = false
  /\ ~ blank (State.name (bufferWith "Privacy toolbox" (Some EmptyString)))
  /\ ~ blank (State.slug (bufferWith "Privacy toolbox" (Some EmptyString)))
  /\ isSubmitDisabled (sampleProps false false)
       (bufferWith "Privacy toolbox" (Some EmptyString)) = false.
Proof.
  split; [reflexivity|]. split; [discriminate|]. split; [discriminate|].
  apply (proj2 submit_disabled_policy (sampleProps false false)
           (bufferWith "Privacy toolbox" (Some EmptyString)));
    [reflexivity | discriminate | discriminate |].
  intros c Hc. left. inversion Hc; subst c. discriminate.
Defined.

(** C5 at the sample collection: the same collection arrives again after
    an add-on was added, and then the whole sample run. *)
Lemma edits_reset_only_for_another_collection_witness :
  (Props.collection (sampleProps false true) = Some sampleCollection
   /\ currentId editedForm = Some (Collection.id sampleCollection)
   /\ edits (state (fst (receiveProps noDecoding editedForm
                           (sampleProps false true) Window.initial)))
      = (Some "Privacy toolbox", None, Some "privacy-tools", false))
  /\ (Props.collection otherProps = Some otherCollection
      /\ currentId editedForm <> Some (Collection.id otherCollection)
      /\ edits (state (fst (receiveProps noDecoding editedForm otherProps
                              Window.initial)))
         = (Some "Ad blockers", Some "Block and relax", Some "ad-blockers",
            false))
  /\ (Forall (sameCollectionStep 7%Z) twoAddsThenUnmount
      /\ edits (state (component
                         (run noDecoding
                            (mount noDecoding (sampleProps false false))
                            twoAddsThenUnmount)))
         = edits (state (component
                           (mount noDecoding (sampleProps false false))))).
Proof.
  assert (F : Forall (sameCollectionStep 7%Z) twoAddsThenUnmount).
  { repeat constructor; exists sampleCollection; split; reflexivity. }
  split; [|split].
  - split; [reflexivity|]. split; [reflexivity|].
    rewrite (proj1 (edits_reset_only_for_another_collection noDecoding)
               editedForm (sampleProps false true) Window.initial
               sampleCollection eq_refl eq_refl).
    reflexivity.
  - split; [reflexivity|]. split; [discriminate|].
    apply (proj1 (proj2 (edits_reset_only_for_another_collection noDecoding))
             editedForm otherProps Window.initial otherCollection);
      [reflexivity | discriminate].
  - split; [exact F|].
    apply (proj2 (proj2 (proj2
             (edits_reset_only_for_another_collection noDecoding)))
             twoAddsThenUnmount
             (mount noDecoding (sampleProps false false)) 7%Z);
      [reflexivity | exact F].
Defined.

End CollectionManagerFacts.

(** * Properties of the install button *)

Module InstallButtonFacts.

Import InstallButton JSStringFacts.

(** ** [getFileHash] *)

Lemma startsWith_hasPrefix s p : JSString.startsWith s p = true <-> hasPrefix s p.
Proof.
  unfold JSString.startsWith, hasPrefix. revert s.
  induction p as [|c p IH]; intros s; simpl.
  - split; [intros _; exists s; reflexivity | intros _; destruct s; reflexivity].
  - destruct s as [|d s]; simpl.
    + split; [discriminate | intros [r H]; discriminate].
    + destruct (Ascii.ascii_dec c d) as [E|N].
      * subst d. rewrite IH. split; intros [r H]; exists r.
        -- rewrite H; reflexivity.
        -- inversion H; reflexivity.
      * split; [discriminate | intros [r H]; inversion H; congruence].
Qed.

Lemma startsWith_not_hasPrefix s p :
  JSString.startsWith s p = false <-> ~ hasPrefix s p.
Proof.
  rewrite <- startsWith_hasPrefix.
  destruct (JSString.startsWith s p); split; intros H.
  - discriminate.
  - exfalso; apply H; reflexivity.
  - intros H'; discriminate.
  - reflexivity.
Qed.

Lemma urlKeyOf_withoutQuery installURL :
  withoutQuery installURL (urlKeyOf installURL).
Proof.
  unfold withoutQuery, urlKeyOf.
  destruct (split_head (Ascii.eqb "?") installURL) as [H1 H2].
  split.
  - destruct (JSString.occurs "?" _) eqn:E; [|reflexivity].
    apply H1 in E. rewrite Ascii.eqb_refl in E. discriminate.
  - destruct H2 as [H2|(c & rest & Hc & H2)]; [left; exact H2|].
    right. apply Ascii.eqb_eq in Hc. subst c. exists rest. exact H2.
Qed.

(** The loop returns the hash of the first file that matches. *)
Lemma firstHash_first urlKey before file after :
  (forall f, In f before -> ~ hasPrefix (File.url f) urlKey) ->
  hasPrefix (File.url file) urlKey ->
  firstHash urlKey (before ++ file :: after) = Some (File.hash file).
Proof.
  intros Hb Hf. induction before as [|g before IH]; simpl.
  - apply startsWith_hasPrefix in Hf. rewrite Hf. reflexivity.
  - rewrite (proj2 (startsWith_not_hasPrefix _ _) (Hb g (or_introl eq_refl))).
    apply IH. intros f Hin. apply Hb. right; exact Hin.
Qed.

Lemma firstHash_none urlKey files :
  firstHash urlKey files = None
  <-> forall f, In f files -> ~ hasPrefix (File.url f) urlKey.
Proof.
  induction files as [|g files IH]; simpl.
  - split; [intros _ f [] | reflexivity].
  - destruct (JSString.startsWith (File.url g) urlKey) eqn:E.
    + split; [discriminate|]. intros H. exfalso.
      apply (H g (or_introl eq_refl)). apply startsWith_hasPrefix. exact E.
    + rewrite IH. split.
      * intros H f [Hf|Hf]; [subst f; apply startsWith_not_hasPrefix; exact E|].
        apply H; exact Hf.
      * intros H f Hf. apply H. right; exact Hf.
Qed.

Lemma firstHash_some urlKey files hash :
  firstHash urlKey files = Some hash ->
  exists before file after,
    files = before ++ file :: after
    /\ (forall f, In f before -> ~ hasPrefix (File.url f) urlKey)
    /\ hasPrefix (File.url file) urlKey
    /\ hash = File.hash file.
Proof.
  induction files as [|g files IH]; simpl; [discriminate|].
  destruct (JSString.startsWith (File.url g) urlKey) eqn:E.
  - intros H; inversion H; subst. exists [], g, files.
    repeat split; [intros f [] | apply startsWith_hasPrefix; exact E].
  - intros H. destruct (IH H) as (before & file & after & Hf & Hb & Hm & Hh).
    exists (g :: before), file, after. subst files. repeat split; auto.
    intros f [Hin|Hin]; [subst f; apply startsWith_not_hasPrefix; exact E|].
    apply Hb; exact Hin.
Qed.

(** C10.  [getFileHash] throws when the add-on is missing, and when the
    install URL is missing or empty; with an add-on and a non-empty install
    URL it returns, a hash or [undefined]. *)
Theorem getFileHash_throws_on_missing_argument
  (addon : option Addon.t) (installURL : option string) :
  match addon, installURL with
  | None, _ =>
      getFileHash addon installURL
      = ([], Threw "The addon parameter cannot be empty")
  | Some _, None | Some _, Some EmptyString =>
      getFileHash addon installURL
      = ([], Threw "The installURL parameter cannot be empty")
  | Some _, Some (String _ _) =>
      exists result, EffMonad.outcome (getFileHash addon installURL)
                     = Returned result
  end.
Proof.
  destruct addon as [a|]; [|reflexivity].
  destruct installURL as [[|c u]|]; try reflexivity.
  unfold getFileHash.
  destruct (firstHash _ _) as [h|]; eexists; reflexivity.
Qed.

Lemma AddonTypeName_eqb_eq a b : AddonTypeName_eqb a b = true <-> a = b.
Proof.
  destruct a, b; simpl; split; intros H; try discriminate; try reflexivity.
  - apply String.eqb_eq in H. congruence.
  - inversion H. apply String.eqb_refl.
Qed.

Lemma includes_In statuses s : includes statuses s = true <-> In s statuses.
Proof.
  unfold includes. rewrite existsb_exists. split.
  - intros (x & Hx & E). destruct s, x; simpl in E; try discriminate; exact Hx.
  - intros H. exists s. split; [exact H | destruct s; reflexivity].
Qed.

Section Handlers.

Variable getAddonIconUrl : Addon.t -> string.
Variable getAddonTypeForTracking : AddonTypeName -> string.
Variable getAddonEventCategory : AddonTypeName -> InstallAction -> string.
Variable findInstallURL : string -> JSValue -> JSValue -> JSValue -> option string.
Variable getThemeData : Addon.t -> JSValue.
Variable JSON_stringify : JSValue -> string.
Variable _getClientCompatibility : Addon.t -> string -> JSValue -> bool.
Variable gettext : string -> string.
Variable ADDON_TYPE_THEMES : list AddonTypeName.

Local Abbreviation installExtension :=
  (installExtension getAddonIconUrl getAddonTypeForTracking
     getAddonEventCategory).
Local Abbreviation installCompleted :=
  (installCompleted getAddonTypeForTracking getAddonEventCategory).
Local Abbreviation click :=
  (click getAddonIconUrl getAddonTypeForTracking getAddonEventCategory).
Local Abbreviation render :=
  (render findInstallURL getThemeData JSON_stringify _getClientCompatibility
     gettext ADDON_TYPE_THEMES).

(** The tracking events of an add-on. *)
Local Abbreviation installStarted addon :=
  (tracking_sendEvent (getAddonTypeForTracking (Addon.type addon))
     (getAddonEventCategory (Addon.type addon) INSTALL_STARTED_ACTION)
     (Addon.name addon)).
Local Abbreviation installSucceeded addon :=
  (tracking_sendEvent (getAddonTypeForTracking (Addon.type addon))
     (getAddonEventCategory (Addon.type addon) INSTALL_ACTION)
     (Addon.name addon)).
Local Abbreviation installingMessage addon :=
  (log_debug ("Installing addon " ++ dquote ++ Addon.slug addon ++ dquote
              ++ " with InstallTrigger")).

(** [installExtension] on a click whose target has a non-empty [href],
    in a browser that has [InstallTrigger]. *)
Lemma installExtension_with_trigger props event c u :
  Props._InstallTrigger props = true ->
  currentTarget_href event = Some (String c u) ->
  let addon := Props.addon props in
  let installURL := String c u in
  let hash := firstHash (urlKeyOf installURL) (currentFiles addon) in
  installExtension props event
  = ([installStarted addon; installingMessage addon; preventDefault;
      stopPropagation]
     ++ match hash with
        | Some _ => []
        | None => [log_warn (noHashMessage addon installURL
                               (urlKeyOf installURL))]
        end
     ++ [InstallTrigger_install (Addon.name addon)
           {| Payload.Hash := hash;
              Payload.IconURL := getAddonIconUrl addon;
              Payload.URL := Some installURL |}],
     Returned false).
Proof.
  intros Ht Hh addon installURL hash.
  unfold InstallButton.installExtension, trackInstallStarted, getFileHash.
  rewrite Ht, Hh. fold addon. fold installURL. fold hash.
  destruct hash; reflexivity.
Qed.

(** C2.  For an add-on and a non-empty install URL, the key is the URL
    without its query string; [getFileHash] returns the hash of the first
    current-version file whose URL has the key as a prefix; when no file
    has, it logs one warning and returns [undefined], and
    [installExtension] then calls [InstallTrigger.install] with an
    undefined [Hash] and returns. *)
Theorem getFileHash_first_matching_file (addon : Addon.t) (installURL : string) :
  installURL <> EmptyString ->
  let urlKey := urlKeyOf installURL in
  withoutQuery installURL urlKey
  /\ (forall before file after,
      currentFiles addon = before ++ file :: after ->
      (forall f, In f before -> ~ hasPrefix (File.url f) urlKey) ->
      hasPrefix (File.url file) urlKey ->
      getFileHash (Some addon) (Some installURL)
      = ([], Returned (Some (File.hash file))))
  /\ ((forall f, In f (currentFiles addon) -> ~ hasPrefix (File.url f) urlKey) ->
      getFileHash (Some addon) (Some installURL)
      = ([log_warn (noHashMessage addon installURL urlKey)], Returned None)
      /\ forall props event,
          Props.addon props = addon ->
          Props._InstallTrigger props = true ->
          currentTarget_href event = Some installURL ->
          installExtension props event
          = ([installStarted addon; installingMessage addon; preventDefault;
              stopPropagation;
              log_warn (noHashMessage addon installURL urlKey);
              InstallTrigger_install (Addon.name addon)
                {| Payload.Hash := None;
                   Payload.IconURL := getAddonIconUrl addon;
                   Payload.URL := Some installURL |}],
             Returned false)).
Proof.
  intros Hne urlKey.
  destruct installURL as [|c u]; [contradiction|].
  split; [apply urlKeyOf_withoutQuery|]. split.
  - intros before file after Hf Hb Hm. unfold getFileHash.
    fold urlKey. rewrite Hf, (firstHash_first urlKey before file after Hb Hm).
    reflexivity.
  - intros Hnone. apply firstHash_none in Hnone. split.
    + unfold getFileHash. fold urlKey. rewrite Hnone. reflexivity.
    + intros props event Ha Ht Hh.
      rewrite (installExtension_with_trigger props event c u Ht Hh).
      rewrite Ha. fold urlKey. rewrite Hnone. reflexivity.
Qed.

(** ** The click handlers and [render] *)

(** C8, as the button implements it.  A click on an extension control
    records install started.  Without [InstallTrigger] nothing else
    happens and the handler returns true, leaving the click to the link.
    With [InstallTrigger] and a non-empty [href] on the control the
    default is prevented and [InstallTrigger.install] is called with the
    file hash resolved for that [href], the icon URL and the [href]; with
    an empty or missing [href] the handler throws after preventing the
    default, without calling [InstallTrigger.install].  The completion
    callback records install succeeded exactly when the status is 0. *)
Theorem installExtension_spec (props : Props.t) (event : Event) :
  let addon := Props.addon props in
  (Props._InstallTrigger props = false ->
   installExtension props event = ([installStarted addon], Returned true))
  /\ (forall c u,
      Props._InstallTrigger props = true ->
      currentTarget_href event = Some (String c u) ->
      let installURL := String c u in
      let hash := firstHash (urlKeyOf installURL) (currentFiles addon) in
      installExtension props event
      = ([installStarted addon; installingMessage addon; preventDefault;
          stopPropagation]
         ++ match hash with
            | Some _ => []
            | None => [log_warn (noHashMessage addon installURL
                                   (urlKeyOf installURL))]
            end
         ++ [InstallTrigger_install (Addon.name addon)
               {| Payload.Hash := hash;
                  Payload.IconURL := getAddonIconUrl addon;
                  Payload.URL := Some installURL |}],
         Returned false))
  /\ (Props._InstallTrigger props = true ->
      JSString.truthy_opt (currentTarget_href event) = false ->
      installExtension props event
      = ([installStarted addon; installingMessage addon; preventDefault;
          stopPropagation],
         Threw "The installURL parameter cannot be empty"))
  /\ (forall xpiURL status,
      exists message,
        installCompleted props xpiURL status
        = (log_debug message
           :: (if Z.eqb status 0 then [installSucceeded addon] else []),
           Returned tt)).
Proof.
  intros addon. repeat split.
  - intros Ht. unfold InstallButton.installExtension, trackInstallStarted.
    rewrite Ht. reflexivity.
  - intros c u Ht Hh. apply installExtension_with_trigger; assumption.
  - intros Ht Hh.
    unfold InstallButton.installExtension, trackInstallStarted, getFileHash.
    rewrite Ht.
    destruct (currentTarget_href event) as [[|c u]|]; try discriminate Hh;
      reflexivity.
  - intros xpiURL status. eexists.
    unfold InstallButton.installCompleted, trackInstallSucceeded.
    destruct (Z.eqb status 0); reflexivity.
Qed.

(** [render] returns: nothing for a search provider on the server, and
    otherwise the loading animation or the button. *)
Lemma render_cases props :
  (Addon.type (Props.addon props) = ADDON_TYPE_OPENSEARCH
   /\ Props.server props = true
   /\ EffMonad.outcome (render props) = Returned None)
  \/ (exists element,
       render props = ([], Returned (Some element))
       /\ ((showLoadingAnimation props = true
            /\ element = LoadingAnimation (getButtonText gettext ADDON_TYPE_THEMES props))
           \/ (showLoadingAnimation props = false
               /\ exists buttonProps,
                   element
                   = ButtonElement
                       (makeClassName (Props.className props)
                          (negb (_getClientCompatibility (Props.addon props)
                                   (Props.clientApp props)
                                   (Props.userAgentInfo props))))
                       buttonProps (getIconName props)
                       (getButtonText gettext ADDON_TYPE_THEMES props)
                   /\ ButtonProps.onClick buttonProps
                      = if _getClientCompatibility (Props.addon props)
                             (Props.clientApp props) (Props.userAgentInfo props)
                        then
                          if includes [DISABLED; ENABLED; INSTALLED]
                               (Props.status props)
                          then onClick_uninstallAddon
                          else if AddonTypeName_eqb
                                    (Addon.type (Props.addon props))
                                    ADDON_TYPE_THEME
                          then onClick_installTheme
                          else if AddonTypeName_eqb
                                    (Addon.type (Props.addon props))
                                    ADDON_TYPE_OPENSEARCH
                          then onClick_installOpenSearch
                          else onClick_installExtension
                        else onClick_preventDefault))).
Proof.
  unfold InstallButton.render.
  destruct (AddonTypeName_eqb (Addon.type (Props.addon props))
              ADDON_TYPE_OPENSEARCH && Props.server props) eqn:G.
  - left. apply andb_true_iff in G. destruct G as [G1 G2].
    apply AddonTypeName_eqb_eq in G1. auto.
  - right. eexists. split; [reflexivity|].
    destruct (showLoadingAnimation props) eqn:L; [left; auto|].
    right. split; [reflexivity|]. eexists. split; [reflexivity|].
    destruct (_getClientCompatibility _ _ _); cbn [negb]; [|reflexivity].
    destruct (includes [DISABLED; ENABLED; INSTALLED] (Props.status props));
      [reflexivity|].
    destruct (AddonTypeName_eqb _ ADDON_TYPE_THEME); reflexivity.
Qed.

(** C4.  With a status among disabled, enabled and installed and a
    compatible add-on, of whatever type, the control that [render]
    returns is the button with [uninstallAddon] as click handler ([render]
    returns nothing only for a search provider on the server); a click
    then prevents the default, and calls [uninstall] with the add-on's
    guid, name and type and the [href] of the control. *)
Theorem uninstall_handler_when_installed (props : Props.t) :
  In (Props.status props) [DISABLED; ENABLED; INSTALLED] ->
  _getClientCompatibility (Props.addon props) (Props.clientApp props)
    (Props.userAgentInfo props) = true ->
  match EffMonad.outcome (render props) with
  | Returned (Some element) => controlWithHandler onClick_uninstallAddon element
  | Returned None =>
      Addon.type (Props.addon props) = ADDON_TYPE_OPENSEARCH
      /\ Props.server props = true
  | Threw _ => False
  end
  /\ forall event,
      click onClick_uninstallAddon props event
      = ([preventDefault; stopPropagation;
          props_uninstall (Addon.guid (Props.addon props))
            (currentTarget_href event) (Addon.name (Props.addon props))
            (Addon.type (Props.addon props))],
         Returned (Some false)).
Proof.
  intros Hs Hc. split; [|reflexivity].
  destruct (render_cases props) as [(Ht & Hv & E)|(element & E & H)].
  - rewrite E. auto.
  - rewrite E. simpl.
    assert (L : showLoadingAnimation props = false).
    { unfold showLoadingAnimation.
      destruct Hs as [H1|[H1|[H1|[]]]]; rewrite <- H1; reflexivity. }
    destruct H as [[H _]|(_ & bp & He & Hb)]; [congruence|].
    rewrite Hc in Hb. apply includes_In in Hs. rewrite Hs in Hb.
    subst element. unfold controlWithHandler.
    do 4 eexists. split; [reflexivity | exact Hb].
Qed.

(** C7, as the button implements it.  For an incompatible add-on
    [render] returns nothing for a search provider on the server, and
    only then; otherwise it returns an element: the loading animation
    while the status is downloading, enabling, installing or
    uninstalling, and in every other case a disabled control, the button
    with the disabled class and a click handler that only prevents the
    default. *)
Theorem incompatible_addon_control (props : Props.t) :
  _getClientCompatibility (Props.addon props) (Props.clientApp props)
    (Props.userAgentInfo props) = false ->
  match EffMonad.outcome (render props) with
  | Returned (Some element) =>
      (In (Props.status props) [DOWNLOADING; ENABLING; INSTALLING; UNINSTALLING]
       /\ exists alt, element = LoadingAnimation alt)
      \/ (~ In (Props.status props)
              [DOWNLOADING; ENABLING; INSTALLING; UNINSTALLING]
          /\ disabledControl element)
  | Returned None =>
      Addon.type (Props.addon props) = ADDON_TYPE_OPENSEARCH
      /\ Props.server props = true
  | Threw _ => False
  end
  /\ (forall event,
      click onClick_preventDefault props event
      = ([preventDefault], Returned None))
  /\ (Addon.type (Props.addon props) = ADDON_TYPE_OPENSEARCH ->
      Props.server props = true ->
      render props
      = ([log_info "Not rendering opensearch install button on the server"],
         Returned None))
  /\ (~ (Addon.type (Props.addon props) = ADDON_TYPE_OPENSEARCH
         /\ Props.server props = true) ->
      exists element, render props = ([], Returned (Some element))).
Proof.
  intros Hc. split; [|split; [reflexivity|split]].
  2:{ intros Ht Hs. unfold InstallButton.render. rewrite Ht, Hs. reflexivity. }
  2:{ intros G.
      destruct (render_cases props) as [(Ht & Hv & E)|(element & E & H)];
        [exfalso; apply G; auto | exists element; exact E]. }
  destruct (render_cases props) as [(Ht & Hv & E)|(element & E & H)].
  - rewrite E. auto.
  - rewrite E. unfold EffMonad.outcome. cbn [snd].
    destruct H as [[L He]|(L & bp & He & Hb)].
    + left. split; [apply (proj1 (includes_In _ _)); exact L | eauto].
    + right. split.
      * intros Hin. apply includes_In in Hin.
        unfold showLoadingAnimation in L. congruence.
      * rewrite Hc in Hb, He. subst element. unfold disabledControl.
        do 4 eexists. split; [reflexivity|]. split; [|exact Hb].
        unfold makeClassName. apply in_or_app. right.
        apply in_or_app. right. left. reflexivity.
Qed.

End Handlers.

(** C7 as stated fails: for an incompatible extension whose status is
    downloading, [render] returns the loading animation, which is not a
    disabled control. *)
Lemma incompatible_downloading_addon_shows_animation :
  sampleCompatibility false (Props.addon downloadingExtension)
    (Props.clientApp downloadingExtension)
    (Props.userAgentInfo downloadingExtension) = false
  /\ sampleRender false downloadingExtension
     = ([], Returned (Some (LoadingAnimation "Downloading")))
  /\ ~ (exists element,
          EffMonad.outcome (sampleRender false downloadingExtension)
          = Returned (Some element)
          /\ disabledControl element).
Proof.
  repeat split.
  intros (element & E & D). unfold disabledControl in D.
  destruct D as (cls & bp & icon & text & D & _).
  inversion E as [H]. rewrite D in H. discriminate H.
Qed.

(** C8 as stated fails: on a click whose target has no [href], or an
    empty one, in a browser that has [InstallTrigger], the handler throws
    and [InstallTrigger.install] is not called. *)
Lemma installExtension_throws_without_href :
  Props._InstallTrigger installableExtension = true
  /\ sampleInstallExtension installableExtension (mkEvent None)
     = ([tracking_sendEvent "addon" "AMO Addon Installs Started" "Adblock";
         log_debug ("Installing addon " ++ dquote ++ "adblock" ++ dquote
                    ++ " with InstallTrigger");
         preventDefault; stopPropagation],
        Threw "The installURL parameter cannot be empty")
  /\ sampleInstallExtension installableExtension (mkEvent (Some EmptyString))
     = sampleInstallExtension installableExtension (mkEvent None)
  /\ ~ (exists name payload,
          In (InstallTrigger_install name payload)
            (EffMonad.trace
               (sampleInstallExtension installableExtension (mkEvent None)))).
Proof.
  repeat split.
  intros (name & payload & Hin). simpl in Hin.
  repeat (destruct Hin as [Hin|Hin]; [discriminate Hin|]). exact Hin.
Qed.

(** ** Concrete instances *)

(** C2 at the sample add-on: an install URL with a query string that
    matches the file, and one that matches no file. *)
Lemma getFileHash_first_matching_file_witness :
  ("https://addons.example/files/1/adblock.xpi?src=search" <> EmptyString
   /\ getFileHash (Some (sampleAddon ADDON_TYPE_EXTENSION))
        (Some "https://addons.example/files/1/adblock.xpi?src=search")
      = ([], Returned (Some "sha256:0a1b")))
  /\ ("https://addons.example/files/2/other.xpi" <> EmptyString
      /\ Props._InstallTrigger installableExtension = true
      /\ sampleInstallExtension installableExtension
           (mkEvent (Some "https://addons.example/files/2/other.xpi"))
         = ([tracking_sendEvent "addon" "AMO Addon Installs Started" "Adblock";
             log_debug ("Installing addon " ++ dquote ++ "adblock" ++ dquote
                        ++ " with InstallTrigger");
             preventDefault; stopPropagation;
             log_warn (noHashMessage (sampleAddon ADDON_TYPE_EXTENSION)
                         "https://addons.example/files/2/other.xpi"
                         "https://addons.example/files/2/other.xpi");
             InstallTrigger_install "Adblock"
               {| Payload.Hash := None;
                  Payload.IconURL := "/icons/default-64.png";
                  Payload.URL := Some "https://addons.example/files/2/other.xpi" |}],
            Returned false)).
Proof.
  split.
  - split; [discriminate|].
    apply (proj1 (proj2 (getFileHash_first_matching_file sampleIconUrl
                           sampleTrackingType sampleEventCategory
                           (sampleAddon ADDON_TYPE_EXTENSION)
                           "https://addons.example/files/1/adblock.xpi?src=search"
                           ltac:(discriminate)))
             [] {| File.url := "https://addons.example/files/1/adblock.xpi?src=";
                   File.hash := "sha256:0a1b" |} []).
    + reflexivity.
    + intros f [].
    + exists "?src=". reflexivity.
  - split; [discriminate|]. split; [reflexivity|].
    apply (proj2 (proj2 (getFileHash_first_matching_file sampleIconUrl
                           sampleTrackingType sampleEventCategory
                           (sampleAddon ADDON_TYPE_EXTENSION)
                           "https://addons.example/files/2/other.xpi"
                           ltac:(discriminate)))).
    + intros f [Hf|[]]. subst f. apply startsWith_not_hasPrefix. reflexivity.
    + reflexivity.
    + reflexivity.
    + reflexivity.
Defined.

(** C8 at the sample extension: without [InstallTrigger], with it and a
    matching [href], and with it and no [href]. *)
Lemma installExtension_spec_witness :
  (Props._InstallTrigger (sampleProps ADDON_TYPE_EXTENSION UNINSTALLED false false)
   = false
   /\ sampleInstallExtension
        (sampleProps ADDON_TYPE_EXTENSION UNINSTALLED false false)
        (mkEvent (Some "https://addons.example/files/1/adblock.xpi"))
      = ([tracking_sendEvent "addon" "AMO Addon Installs Started" "Adblock"],
         Returned true))
  /\ (Props._InstallTrigger installableExtension = true
      /\ sampleInstallExtension installableExtension
           (mkEvent (Some "https://addons.example/files/1/adblock.xpi"))
         = ([tracking_sendEvent "addon" "AMO Addon Installs Started" "Adblock";
             log_debug ("Installing addon " ++ dquote ++ "adblock" ++ dquote
                        ++ " with InstallTrigger");
             preventDefault; stopPropagation;
             InstallTrigger_install "Adblock"
               {| Payload.Hash := Some "sha256:0a1b";
                  Payload.IconURL := "/icons/default-64.png";
                  Payload.URL := Some "https://addons.example/files/1/adblock.xpi" |}],
            Returned false))
  /\ (JSString.truthy_opt (currentTarget_href (mkEvent None)) = false
      /\ EffMonad.outcome (sampleInstallExtension installableExtension (mkEvent None))
         = Threw "The installURL parameter cannot be empty").
Proof.
  split; [|split].
  - split; [reflexivity|].
    apply (proj1 (installExtension_spec sampleIconUrl sampleTrackingType
                    sampleEventCategory
                    (sampleProps ADDON_TYPE_EXTENSION UNINSTALLED false false)
                    (mkEvent (Some "https://addons.example/files/1/adblock.xpi")))).
    reflexivity.
  - split; [reflexivity|].
    apply (proj1 (proj2 (installExtension_spec sampleIconUrl sampleTrackingType
                           sampleEventCategory installableExtension
                           (mkEvent (Some "https://addons.example/files/1/adblock.xpi"))))
             "h"%char "ttps://addons.example/files/1/adblock.xpi");
      reflexivity.
  - split; [reflexivity|].
    unfold sampleInstallExtension.
    rewrite (proj1 (proj2 (proj2 (installExtension_spec sampleIconUrl
                                    sampleTrackingType sampleEventCategory
                                    installableExtension (mkEvent None))))
               eq_refl eq_refl).
    reflexivity.
Defined.

(** C4 at an installed theme, and C7 at an extension that is not
    installed, in a browser that is not compatible. *)
Lemma uninstall_handler_when_installed_witness :
  In (Props.status (sampleProps ADDON_TYPE_THEME INSTALLED true false))
    [DISABLED; ENABLED; INSTALLED]
  /\ sampleCompatibility true
       (Props.addon (sampleProps ADDON_TYPE_THEME INSTALLED true false))
       (Props.clientApp (sampleProps ADDON_TYPE_THEME INSTALLED true false))
       (Props.userAgentInfo (sampleProps ADDON_TYPE_THEME INSTALLED true false))
     = true
  /\ match EffMonad.outcome
            (sampleRender true (sampleProps ADDON_TYPE_THEME INSTALLED true false))
     with
     | Returned (Some element) =>
         controlWithHandler onClick_uninstallAddon element
     | _ => False
     end.
Proof.
  assert (S : In (Props.status (sampleProps ADDON_TYPE_THEME INSTALLED true false))
                [DISABLED; ENABLED; INSTALLED]).
  { right; right; left; reflexivity. }
  split; [exact S|]. split; [reflexivity|].
  exact (proj1 (uninstall_handler_when_installed sampleIconUrl
                  sampleTrackingType sampleEventCategory sampleInstallURL
                  sampleThemeData sampleStringify (sampleCompatibility true)
                  sampleGettext [ADDON_TYPE_THEME]
                  (sampleProps ADDON_TYPE_THEME INSTALLED true false)
                  S eq_refl)).
Defined.

Lemma incompatible_addon_control_witness :
  sampleCompatibility false (Props.addon installableExtension)
    (Props.clientApp installableExtension)
    (Props.userAgentInfo installableExtension) = false
  /\ match EffMonad.outcome (sampleRender false installableExtension) with
     | Returned (Some element) => disabledControl element
     | _ => False
     end
  /\ sampleRender false (sampleProps ADDON_TYPE_OPENSEARCH UNINSTALLED true true)
     = ([log_info "Not rendering opensearch install button on the server"],
        Returned None).
Proof.
  split; [reflexivity|]. split.
  - destruct (proj1 (incompatible_addon_control sampleIconUrl sampleTrackingType
                       sampleEventCategory sampleInstallURL sampleThemeData
                       sampleStringify (sampleCompatibility false) sampleGettext
                       [ADDON_TYPE_THEME] installableExtension eq_refl))
      as [[Hin _]|[_ D]].
    + simpl in Hin. destruct Hin as [H|[H|[H|[H|[]]]]]; discriminate H.
    + exact D.
  - exact (proj1 (proj2 (proj2
             (incompatible_addon_control sampleIconUrl sampleTrackingType
                sampleEventCategory sampleInstallURL sampleThemeData
                sampleStringify (sampleCompatibility false) sampleGettext
                [ADDON_TYPE_THEME]
                (sampleProps ADDON_TYPE_OPENSEARCH UNINSTALLED true true)
                eq_refl))) eq_refl eq_refl).
Defined.

End InstallButtonFacts.

(** * Further properties of the collection form *)

Module CollectionManagerExtra.

Import CollectionManager CollectionManagerHandlers JSStringFacts
  CollectionManagerFacts.

(** ** Trimming and splitting *)

Lemma append_cons_assoc (a : string) (c : ascii) (b : string) :
  ((a ++ String c EmptyString) ++ b = a ++ String c b)%string.
Proof. induction a as [|d a IH]; simpl; [reflexivity | rewrite IH; reflexivity]. Qed.

Lemma occurs_append c a b :
  JSString.occurs c (a ++ b) = JSString.occurs c a || JSString.occurs c b.
Proof.
  induction a as [|d a IH]; simpl; [reflexivity|].
  rewrite IH. apply orb_assoc.
Qed.

Lemma allChars_occurs p s :
  allChars p s = true <-> (forall c, JSString.occurs c s = true -> p c = true).
Proof.
  induction s as [|d s IH]; simpl.
  - split; [intros _ c H; discriminate | reflexivity].
  - rewrite andb_true_iff, IH. split.
    + intros [Hd Hs] c Hc. apply orb_true_iff in Hc. destruct Hc as [Hc|Hc].
      * apply Ascii.eqb_eq in Hc. subst c. exact Hd.
      * apply Hs; exact Hc.
    + intros H. split.
      * apply H. rewrite Ascii.eqb_refl. reflexivity.
      * intros c Hc. apply H. rewrite Hc. apply orb_true_r.
Qed.

Lemma allChars_append p a b :
  allChars p (a ++ b) = allChars p a && allChars p b.
Proof.
  induction a as [|d a IH]; simpl; [reflexivity|].
  rewrite IH. apply andb_assoc.
Qed.

(** [trimStart] removes a prefix of white space, [trimEnd] a suffix. *)
Lemma trimStart_prefix s :
  exists w, s = (w ++ JSString.trimStart s)%string
            /\ allChars JSString.isWhiteSpace w = true.
Proof.
  induction s as [|c r (w & E & Hw)]; simpl.
  - exists EmptyString. split; reflexivity.
  - destruct (JSString.isWhiteSpace c) eqn:Ec.
    + exists (String c w). simpl. rewrite Ec, Hw. split; [congruence | reflexivity].
    + exists EmptyString. split; reflexivity.
Qed.

Lemma trimEnd_suffix s :
  exists w, s = (JSString.trimEnd s ++ w)%string
            /\ allChars JSString.isWhiteSpace w = true.
Proof.
  induction s as [|c r (w & E & Hw)]; simpl.
  - exists EmptyString. split; reflexivity.
  - destruct (JSString.trimEnd r) as [|d r'] eqn:Er.
    + simpl in E. destruct (JSString.isWhiteSpace c) eqn:Ec.
      * exists (String c w). simpl. rewrite Ec, Hw. split; [congruence | reflexivity].
      * exists w. simpl. split; [congruence | exact Hw].
    + exists w. simpl in *. split; [congruence | exact Hw].
Qed.

(** What is not white space survives trimming. *)
Lemma occurs_trim c s :
  JSString.isWhiteSpace c = false ->
  JSString.occurs c s = true ->
  JSString.occurs c (JSString.trim s) = true.
Proof.
  intros Hc Hs. unfold JSString.trim.
  destruct (trimStart_prefix s) as (w1 & E1 & Hw1).
  destruct (trimEnd_suffix (JSString.trimStart s)) as (w2 & E2 & Hw2).
  rewrite E1, occurs_append in Hs.
  assert (N1 : JSString.occurs c w1 = false).
  { destruct (JSString.occurs c w1) eqn:O; [|reflexivity].
    rewrite (proj1 (allChars_occurs _ _) Hw1 c O) in Hc. discriminate. }
  rewrite N1 in Hs. simpl in Hs.
  rewrite E2, occurs_append in Hs.
  assert (N2 : JSString.occurs c w2 = false).
  { destruct (JSString.occurs c w2) eqn:O; [|reflexivity].
    rewrite (proj1 (allChars_occurs _ _) Hw2 c O) in Hc. discriminate. }
  rewrite N2, orb_false_r in Hs. exact Hs.
Qed.

Lemma trimEnd_idempotent s :
  JSString.trimEnd (JSString.trimEnd s) = JSString.trimEnd s.
Proof.
  induction s as [|c r IH]; simpl; [reflexivity|].
  destruct (JSString.trimEnd r) as [|d r'] eqn:Er.
  - destruct (JSString.isWhiteSpace c) eqn:Ec; simpl; [reflexivity|].
    rewrite Ec. reflexivity.
  - simpl in IH |- *. change (JSString.trimEnd (String d r')) with
      (match JSString.trimEnd r' with
       | EmptyString => if JSString.isWhiteSpace d then EmptyString
                        else String d EmptyString
       | String a b => String d (String a b)
       end) in IH.
    change (JSString.trimEnd (String d r')) with
      (match JSString.trimEnd r' with
       | EmptyString => if JSString.isWhiteSpace d then EmptyString
                        else String d EmptyString
       | String a b => String d (String a b)
       end).
    rewrite IH. reflexivity.
Qed.

Lemma append_empty (s : string) : (s ++ EmptyString)%string = s.
Proof. induction s as [|c s IH]; simpl; [reflexivity | rewrite IH; reflexivity]. Qed.

Lemma whiteSpace_not_alphaNumeric c :
  JSString.isWhiteSpace c = true -> JSString.isAlphaNumeric c = false.
Proof.
  destruct c as [[] [] [] [] [] [] [] []]; intros H;
    solve [reflexivity | discriminate H].
Qed.

Lemma alphaNumeric_not_whiteSpace c :
  JSString.isAlphaNumeric c = true -> JSString.isWhiteSpace c = false.
Proof.
  intros H. destruct (JSString.isWhiteSpace c) eqn:E; [|reflexivity].
  rewrite (whiteSpace_not_alphaNumeric c E) in H. discriminate.
Qed.

Lemma allChars_weaken (p q : ascii -> bool) s :
  (forall c, p c = true -> q c = true) ->
  allChars p s = true -> allChars q s = true.
Proof.
  intros H. rewrite !allChars_occurs. intros Hp c Hc. apply H, Hp, Hc.
Qed.

Lemma allChars_false p s :
  allChars p s = false ->
  exists c, JSString.occurs c s = true /\ p c = false.
Proof.
  induction s as [|d s IH]; simpl; [discriminate|].
  destruct (p d) eqn:Ed; simpl.
  - intros H. destruct (IH H) as (c & Hc & Hp). exists c.
    rewrite Hc, orb_true_r. auto.
  - intros _. exists d. rewrite Ascii.eqb_refl. auto.
Qed.

(** The segments of a split hold no separator. *)
Lemma split_segments_clean sep s :
  Forall (fun seg => allChars (fun c => negb (sep c)) seg = true)
    (JSString.split sep s).
Proof.
  induction s as [|c r IH]; simpl.
  - constructor; [reflexivity | constructor].
  - destruct (sep c) eqn:Ec.
    + constructor; [reflexivity | exact IH].
    + destruct (JSString.split sep r) as [|h t]; simpl.
      * constructor; [simpl; rewrite Ec; reflexivity | constructor].
      * inversion IH as [|? ? Hh Ht]; subst.
        constructor; [simpl; rewrite Ec, Hh; reflexivity | exact Ht].
Qed.

Lemma split_append_separator sep s c :
  sep c = true ->
  JSString.split sep (s ++ String c EmptyString)
  = JSString.split sep s ++ [EmptyString].
Proof.
  intros Hc. induction s as [|d r IH]; simpl.
  - rewrite Hc. reflexivity.
  - rewrite IH. destruct (sep d); [reflexivity|].
    pose proof (split_not_nil sep r) as N.
    destruct (JSString.split sep r); [contradiction | reflexivity].
Qed.

(** Separators at either end of a string add no segment. *)
Lemma segments_append_separators sep w : forall s,
  allChars sep w = true ->
  filter JSString.nonEmpty (JSString.split sep (s ++ w))
  = filter JSString.nonEmpty (JSString.split sep s).
Proof.
  induction w as [|c w IH]; intros s H.
  - rewrite append_empty. reflexivity.
  - simpl in H. apply andb_true_iff in H. destruct H as [Hc Hw].
    rewrite <- append_cons_assoc, (IH _ Hw), (split_append_separator _ _ _ Hc).
    rewrite filter_app. simpl. apply app_nil_r.
Qed.

Lemma segments_prepend_separators sep w s :
  allChars sep w = true ->
  filter JSString.nonEmpty (JSString.split sep (w ++ s))
  = filter JSString.nonEmpty (JSString.split sep s).
Proof.
  induction w as [|c w IH]; intros H; [reflexivity|].
  simpl in H. apply andb_true_iff in H. destruct H as [Hc Hw].
  simpl. rewrite Hc. simpl. apply IH, Hw.
Qed.

Lemma segments_trim sep s :
  (forall c, JSString.isWhiteSpace c = true -> sep c = true) ->
  filter JSString.nonEmpty (JSString.split sep (JSString.trim s))
  = filter JSString.nonEmpty (JSString.split sep s).
Proof.
  intros Hsep. unfold JSString.trim.
  destruct (trimStart_prefix s) as (w1 & E1 & Hw1).
  destruct (trimEnd_suffix (JSString.trimStart s)) as (w2 & E2 & Hw2).
  rewrite E1 at 2.
  rewrite (segments_prepend_separators sep w1 _ (allChars_weaken _ _ _ Hsep Hw1)).
  rewrite E2 at 2.
  rewrite (segments_append_separators sep w2 _ (allChars_weaken _ _ _ Hsep Hw2)).
  reflexivity.
Qed.

Lemma segments_all_separators sep s :
  allChars sep s = true ->
  filter JSString.nonEmpty (JSString.split sep s) = [].
Proof.
  intros H.
  pose proof (segments_prepend_separators sep s EmptyString H) as E.
  rewrite append_empty in E. exact E.
Qed.

Lemma split_clean sep a :
  allChars (fun c => negb (sep c)) a = true -> JSString.split sep a = [a].
Proof.
  induction a as [|d a IH]; simpl; [reflexivity|].
  intros H. apply andb_true_iff in H. destruct H as [Hd Ha].
  apply negb_true_iff in Hd. rewrite Hd, (IH Ha). reflexivity.
Qed.

Lemma split_clean_then_separator sep a c b :
  allChars (fun c => negb (sep c)) a = true ->
  sep c = true ->
  JSString.split sep (a ++ String c b) = a :: JSString.split sep b.
Proof.
  intros Ha Hc. induction a as [|d a IH]; simpl.
  - rewrite Hc. reflexivity.
  - simpl in Ha. apply andb_true_iff in Ha. destruct Ha as [Hd Ha].
    apply negb_true_iff in Hd. rewrite Hd, (IH Ha). reflexivity.
Qed.

(** Joining clean non-empty segments with a separator and splitting again
    gives the segments back. *)
Lemma segments_join sep c segs :
  sep c = true ->
  Forall (fun seg => JSString.nonEmpty seg = true
                     /\ allChars (fun c => negb (sep c)) seg = true) segs ->
  filter JSString.nonEmpty
    (JSString.split sep (JSString.join (String c EmptyString) segs))
  = segs.
Proof.
  intros Hc. induction segs as [|a rest IH]; intros H; [reflexivity|].
  inversion H as [|? ? [Hne Ha] Hrest]; subst.
  unfold JSString.join in *. simpl.
  destruct rest as [|b rest'].
  - rewrite (split_clean sep a Ha). simpl. rewrite Hne. reflexivity.
  - change (String c EmptyString ++ String.concat (String c EmptyString) (b :: rest'))%string
      with (String c (String.concat (String c EmptyString) (b :: rest'))).
    rewrite (split_clean_then_separator sep a c _ Ha Hc). simpl.
    rewrite Hne. f_equal. apply IH, Hrest.
Qed.

Lemma segments_good sep s :
  Forall (fun seg => JSString.nonEmpty seg = true
                     /\ allChars (fun c => negb (sep c)) seg = true)
    (filter JSString.nonEmpty (JSString.split sep s)).
Proof.
  apply Forall_forall. intros seg Hin. apply filter_In in Hin.
  destruct Hin as [Hin Hne]. split; [exact Hne|].
  exact (proj1 (Forall_forall _ _) (split_segments_clean sep s) seg Hin).
Qed.

Lemma allChars_join p sep segs :
  allChars p sep = true ->
  Forall (fun seg => allChars p seg = true) segs ->
  allChars p (JSString.join sep segs) = true.
Proof.
  intros Hsep. unfold JSString.join.
  induction segs as [|a rest IH]; intros H; [reflexivity|].
  inversion H as [|? ? Ha Hrest]; subst. simpl.
  destruct rest as [|b rest']; [exact Ha|].
  rewrite !allChars_append, Ha, Hsep. simpl. apply IH, Hrest.
Qed.

Lemma occurs_split sep c s :
  JSString.occurs c s = true ->
  sep c = false ->
  exists seg, In seg (JSString.split sep s) /\ JSString.occurs c seg = true.
Proof.
  intros Hc Hs. induction s as [|d r IH]; simpl in *; [discriminate|].
  pose proof (split_not_nil sep r) as N.
  destruct (Ascii.eqb c d) eqn:E.
  - apply Ascii.eqb_eq in E. subst d. rewrite Hs.
    destruct (JSString.split sep r) as [|h t]; [contradiction|].
    exists (String c h). simpl. rewrite Ascii.eqb_refl. auto.
  - simpl in Hc. destruct (IH Hc) as (seg & Hin & Ho).
    destruct (sep d).
    + exists seg. split; [right; exact Hin | exact Ho].
    + destruct (JSString.split sep r) as [|h t]; [contradiction|].
      destruct Hin as [Hin|Hin].
      * subst seg. exists (String d h). simpl. rewrite Ho, orb_true_r. auto.
      * exists seg. split; [right; exact Hin | exact Ho].
Qed.

Lemma occurs_join c sep seg segs :
  In seg segs ->
  JSString.occurs c seg = true ->
  JSString.occurs c (JSString.join sep segs) = true.
Proof.
  unfold JSString.join. induction segs as [|a rest IH]; intros Hin Ho; [contradiction|].
  simpl. destruct rest as [|b rest'].
  - destruct Hin as [Hin|[]]. subst a. exact Ho.
  - rewrite !occurs_append. destruct Hin as [Hin|Hin].
    + subst a. rewrite Ho. reflexivity.
    + rewrite (IH Hin Ho), !orb_true_r. reflexivity.
Qed.

Lemma occurs_not_empty c s : JSString.occurs c s = true -> s <> EmptyString.
Proof. intros H E. subst s. discriminate H. Qed.

(** ** The derived slug *)

(** X1.  A derived slug holds only letters, digits and hyphens. *)
Theorem slugOfName_charset (name : string) :
  allChars isSlugChar (slugOfName name) = true.
Proof.
  unfold slugOfName. apply allChars_join; [reflexivity|].
  apply Forall_forall. intros seg Hin.
  pose proof (proj1 (Forall_forall _ _) (segments_good _ name) seg Hin) as [_ H].
  revert H. apply allChars_weaken. intros c Hc. unfold isSlugChar.
  apply negb_true_iff, negb_false_iff in Hc. rewrite Hc. reflexivity.
Qed.

(** X2.  The slug of a name does not depend on the white space around
    the name: trimming the name first, as [onTextInput] does, changes
    nothing. *)
Theorem slugOfName_trim (name : string) :
  slugOfName (JSString.trim name) = slugOfName name.
Proof.
  unfold slugOfName. f_equal. apply segments_trim.
  intros c Hc. rewrite (whiteSpace_not_alphaNumeric c Hc). reflexivity.
Qed.

(** X3.  Deriving a slug from a derived slug gives the same slug. *)
Theorem slugOfName_idempotent (name : string) :
  slugOfName (slugOfName name) = slugOfName name.
Proof.
  unfold slugOfName at 1 3. f_equal.
  change "-"%string with (String "-"%char EmptyString).
  apply segments_join; [reflexivity | apply segments_good].
Qed.

Lemma not_blank_of_occurs c v :
  JSString.isWhiteSpace c = false ->
  JSString.occurs c v = true ->
  isBlank (Some v) = false.
Proof.
  intros Hw Ho. apply isBlank_not_blank. simpl.
  apply (occurs_not_empty c). apply occurs_trim; assumption.
Qed.

(** The slug derived from a typed name is blank exactly when the name has
    no letter or digit. *)
Lemma derived_slug_blank value :
  isBlank (Some (slugOfName (JSString.trim value)))
  = allChars (fun c => negb (JSString.isAlphaNumeric c)) value.
Proof.
  assert (T : slugOfName (JSString.trim value) = slugOfName value).
  { unfold slugOfName. f_equal. apply segments_trim.
    intros c Hc. rewrite (whiteSpace_not_alphaNumeric c Hc). reflexivity. }
  rewrite T.
  destruct (allChars (fun c => negb (JSString.isAlphaNumeric c)) value) eqn:A.
  - unfold slugOfName. rewrite (segments_all_separators _ _ A). reflexivity.
  - destruct (allChars_false _ _ A) as (c & Ho & Hc).
    apply negb_false_iff in Hc.
    apply (not_blank_of_occurs c); [apply alphaNumeric_not_whiteSpace, Hc|].
    destruct (occurs_split (fun c => negb (JSString.isAlphaNumeric c)) c value Ho)
      as (seg & Hin & Hs); [rewrite Hc; reflexivity|].
    unfold slugOfName. apply (occurs_join c _ seg); [|exact Hs].
    apply filter_In. split; [exact Hin|].
    destruct seg; [discriminate Hs | reflexivity].
Qed.

(** X4.  In the form that creates a collection (no collection loaded, no
    modification in flight, slug not edited by hand), typing a name
    enables the submit button exactly when the name has a letter or a
    digit: otherwise the derived slug is empty. *)
Theorem typed_name_enables_submit (props : Props.t) (s : State.t)
  (value : string) :
  Props.creating props = true ->
  Props.collection props = None ->
  Props.isCollectionBeingModified props = false ->
  State.customSlug s = false ->
  isSubmitDisabled props
    (onTextInput props s (Target.mk name_input (Some value))) = false
  <-> exists c, JSString.occurs c value = true
                /\ JSString.isAlphaNumeric c = true.
Proof.
  intros Hc Hn Hf Hs.
  assert (E : isSubmitDisabled props
                (onTextInput props s (Target.mk name_input (Some value)))
              = isBlank (Some value)
                || isBlank (Some (slugOfName (JSString.trim value)))).
  { unfold onTextInput, isSubmitDisabled, formIsDisabled, formIsUnchanged,
      isNameBlank, isSlugBlank. simpl.
    rewrite Hc, Hn, Hf, Hs. reflexivity. }
  rewrite E, derived_slug_blank. split.
  - intros H. apply orb_false_iff in H. destruct H as [_ H].
    destruct (allChars_false _ _ H) as (c & Ho & Hp).
    exists c. split; [exact Ho | apply negb_false_iff, Hp].
  - intros (c & Ho & Ha).
    rewrite (not_blank_of_occurs c value (alphaNumeric_not_whiteSpace c Ha) Ho).
    simpl. destruct (allChars _ value) eqn:A; [|reflexivity].
    pose proof (proj1 (allChars_occurs _ _) A c Ho) as Hp. simpl in Hp.
    rewrite Ha in Hp. discriminate Hp.
Qed.

(** ** A freshly loaded buffer *)

(** X5.  A buffer that has just been loaded from the props disables the
    submit button, provided decoding leaves the collection's name as it is
    and its description as it is or, for a [null] description, empty. *)
Theorem fresh_buffer_disables_submit
  (decodeHtmlEntities : option string -> option string) (props : Props.t) :
  (forall c, Props.collection props = Some c ->
     decodeHtmlEntities (Some (Collection.name c)) = Some (Collection.name c)
     /\ (decodeHtmlEntities (Collection.description c) = Collection.description c
         \/ (Collection.description c = None
             /\ decodeHtmlEntities None = Some EmptyString))) ->
  isSubmitDisabled props (propsToState decodeHtmlEntities props) = true.
Proof.
  intros H. unfold isSubmitDisabled.
  destruct (Props.collection props) as [c|] eqn:Ec.
  - destruct (H c eq_refl) as [Hn Hd].
    assert (U : formIsUnchanged props (propsToState decodeHtmlEntities props) = true).
    { apply formIsUnchanged_bufferUnchanged. exists c.
      unfold propsToState. rewrite Ec. simpl. repeat split; auto.
      destruct Hd as [Hd|[Hd1 Hd2]]; [left; exact Hd|].
      right. rewrite Hd1. auto. }
    rewrite U. rewrite orb_true_r. reflexivity.
  - unfold formIsDisabled, isNameBlank, propsToState. rewrite Ec. simpl.
    destruct (Props.creating props); simpl; [|reflexivity].
    rewrite !orb_true_r. reflexivity.
Qed.

(** X6.  When decoding changes the collection's name into another
    non-blank name, the freshly loaded buffer already enables the submit
    button, without any edit, as long as the slug is not blank and no
    modification is in flight: the buffer holds the decoded name while
    the comparison is made with the stored one. *)
Theorem decoded_name_enables_submit
  (decodeHtmlEntities : option string -> option string) (props : Props.t)
  (c : Collection.t) (decoded : string) :
  Props.collection props = Some c ->
  Props.isCollectionBeingModified props = false ->
  decodeHtmlEntities (Some (Collection.name c)) = Some decoded ->
  decoded <> Collection.name c ->
  JSString.trim decoded <> EmptyString ->
  JSString.trim (Collection.slug c) <> EmptyString ->
  isSubmitDisabled props (propsToState decodeHtmlEntities props) = false.
Proof.
  intros Hc Hf Hd Hne Hb Hs.
  unfold isSubmitDisabled, formIsDisabled, isNameBlank, isSlugBlank.
  rewrite Hc, Hf. simpl.
  assert (U : formIsUnchanged props (propsToState decodeHtmlEntities props) = false).
  { destruct (formIsUnchanged _ _) eqn:E; [|reflexivity].
    apply formIsUnchanged_bufferUnchanged in E.
    destruct E as (c' & Hc' & Hn & _). rewrite Hc in Hc'. inversion Hc'; subst c'.
    unfold propsToState in Hn. rewrite Hc in Hn. simpl in Hn. congruence. }
  rewrite U. unfold propsToState. rewrite Hc. simpl State.name. simpl State.slug.
  rewrite Hd.
  rewrite (proj2 (isBlank_not_blank (Some decoded)) Hb).
  rewrite (proj2 (isBlank_not_blank (Some (Collection.slug c))) Hs).
  reflexivity.
Qed.

(** ** Cancelling and submitting *)

(** X7.  While a collection is being created and none is loaded, the
    cancel button is enabled, and [onCancel] goes back one history entry
    and then throws: it clears no error and pushes no URL. *)
Theorem cancel_while_creating
  (decodeHtmlEntities : option string -> option string)
  (convertFiltersToQueryParams : JSValue -> JSValue)
  (gettext : string -> string) (props : Props.t) (s : State.t) :
  Props.creating props = true ->
  Props.collection props = None ->
  Props.isCollectionBeingModified props = false ->
  FormView.cancelDisabled (render gettext props s) = false
  /\ onCancel decodeHtmlEntities convertFiltersToQueryParams props
     = ([preventDefault; stopPropagation; router_goBack],
        Threw "A collection must be loaded before you can cancel").
Proof.
  intros Hc Hn Hf. unfold render, formIsDisabled, onCancel. simpl.
  rewrite Hc, Hn, Hf. split; reflexivity.
Qed.

Lemma trimStart_head s :
  JSString.trimStart s = EmptyString
  \/ exists c r, JSString.trimStart s = String c r
                 /\ JSString.isWhiteSpace c = false.
Proof.
  induction s as [|c r IH]; simpl; [left; reflexivity|].
  destruct (JSString.isWhiteSpace c) eqn:E; [exact IH|].
  right. exists c, r. auto.
Qed.

Lemma trim_idempotent s : JSString.trim (JSString.trim s) = JSString.trim s.
Proof.
  unfold JSString.trim.
  assert (H : JSString.trimStart (JSString.trimEnd (JSString.trimStart s))
              = JSString.trimEnd (JSString.trimStart s)).
  { destruct (trimStart_head s) as [E|(c & r & E & Hc)]; rewrite E;
      [reflexivity|].
    simpl. destruct (JSString.trimEnd r); rewrite ?Hc; simpl; rewrite Hc;
      reflexivity. }
  rewrite H. apply trimEnd_idempotent.
Qed.

Lemma blank_trimmed field :
  ~ blank field ->
  exists v, option_map JSString.trim field = Some v
            /\ v <> EmptyString /\ JSString.trim v = v.
Proof.
  destruct field as [f|]; simpl; intros H; [|exfalso; apply H; exact I].
  exists (JSString.trim f). split; [reflexivity|]. split; [exact H|].
  apply trim_idempotent.
Qed.

Lemma truthy_opt_some (o : option string) :
  JSString.truthy_opt o = true -> exists c r, o = Some (String c r).
Proof. destruct o as [[|c r]|]; simpl; intros H; try discriminate; eauto. Qed.

(** X8.  [onSubmit] throws exactly when the site language is missing, the
    name is blank, the slug is blank, or the form is not creating and has
    no collection; it has then dispatched nothing. *)
Theorem onSubmit_throws_iff (props : Props.t) (errorHandler_id : string)
  (include_addon_id : JSValue) (s : State.t) :
  let r := onSubmit props errorHandler_id include_addon_id s in
  ((exists message, EffMonad.outcome r = Threw message)
   <-> JSString.truthy_opt (Props.siteLang props) = false
       \/ blank (State.name s)
       \/ blank (State.slug s)
       \/ (Props.creating props = false /\ Props.collection props = None))
  /\ (forall message,
        EffMonad.outcome r = Threw message ->
        EffMonad.trace r = [on preventDefault; on stopPropagation]).
Proof.
  unfold onSubmit. simpl.
  destruct (Props.siteLang props) as [[|l lang]|]; simpl;
    try (split; [split; [intros _; left; reflexivity | intros _; eexists; reflexivity]
                | reflexivity]).
  destruct (State.name s) as [n|]; simpl;
    try (split; [split; [intros _; right; left; exact I
                        | intros _; eexists; reflexivity]
                | reflexivity]).
  destruct (JSString.trim n) as [|a n'] eqn:En; simpl;
    try (split; [split; [intros _; right; left; reflexivity
                        | intros _; eexists; reflexivity]
                | reflexivity]).
  destruct (State.slug s) as [g|]; simpl;
    try (split; [split; [intros _; right; right; left; exact I
                        | intros _; eexists; reflexivity]
                | reflexivity]).
  destruct (JSString.trim g) as [|b g'] eqn:Eg; simpl;
    try (split; [split; [intros _; right; right; left; reflexivity
                        | intros _; eexists; reflexivity]
                | reflexivity]).
  destruct (Props.creating props); simpl.
  - split; [|intros m H; discriminate H]. split.
    + intros [m H]. discriminate H.
    + intros [H|[H|[H|[H _]]]]; discriminate H.
  - destruct (Props.collection props) as [c|]; simpl.
    + split; [|intros m H; discriminate H]. split.
      * intros [m H]. discriminate H.
      * intros [H|[H|[H|[_ H]]]]; discriminate H.
    + split; [|reflexivity]. split.
      * intros _. right; right; right. auto.
      * intros _. eexists; reflexivity.
Qed.

(** X9.  Whenever [render] enables the submit button and the site
    language is known, [onSubmit] passes its checks and dispatches exactly
    one action: [createCollection] in create mode, [updateCollection] for
    the loaded collection otherwise.  The action carries the trimmed name
    and slug, which are not empty and have no white space around them,
    and the description as typed. *)
Theorem enabled_submit_dispatches (props : Props.t) (errorHandler_id : string)
  (include_addon_id : JSValue) (s : State.t) :
  isSubmitDisabled props s = false ->
  JSString.truthy_opt (Props.siteLang props) = true ->
  exists siteLang name slug,
    Props.siteLang props = Some siteLang
    /\ option_map JSString.trim (State.name s) = Some name
    /\ option_map JSString.trim (State.slug s) = Some slug
    /\ name <> EmptyString /\ JSString.trim name = name
    /\ slug <> EmptyString /\ JSString.trim slug = slug
    /\ (Props.creating props = true ->
        onSubmit props errorHandler_id include_addon_id s
        = ([on preventDefault; on stopPropagation;
            dispatch (createCollection
              {| CreateParams.description :=
                   mkLocalized siteLang (State.description s);
                 CreateParams.errorHandlerId := errorHandler_id;
                 CreateParams.name := mkLocalized siteLang (Some name);
                 CreateParams.slug := slug;
                 CreateParams.defaultLocale := siteLang;
                 CreateParams.includeAddonId := include_addon_id;
                 CreateParams.username := Props.currentUsername props |})],
           Returned tt))
    /\ (Props.creating props = false ->
        exists collection,
          Props.collection props = Some collection
          /\ onSubmit props errorHandler_id include_addon_id s
             = ([on preventDefault; on stopPropagation;
                 dispatch (updateCollection
                   {| UpdateParams.description :=
                        mkLocalized siteLang (State.description s);
                      UpdateParams.errorHandlerId := errorHandler_id;
                      UpdateParams.name := mkLocalized siteLang (Some name);
                      UpdateParams.slug := slug;
                      UpdateParams.collectionSlug := Collection.slug collection;
                      UpdateParams.defaultLocale :=
                        Collection.defaultLocale collection;
                      UpdateParams.filters := Props.filters props;
                      UpdateParams.username :=
                        Collection.authorUsername collection |})],
                Returned tt)).
Proof.
  intros Hd Hl. unfold isSubmitDisabled in Hd.
  apply orb_false_iff in Hd. destruct Hd as [Hd Hs].
  apply orb_false_iff in Hd. destruct Hd as [Hd Hn].
  apply orb_false_iff in Hd. destruct Hd as [Hd _].
  apply isBlank_not_blank in Hn. apply isBlank_not_blank in Hs.
  destruct (truthy_opt_some _ Hl) as (l & lang & El).
  destruct (blank_trimmed _ Hn) as (name & En & Nn & Tn).
  destruct (blank_trimmed _ Hs) as (slug & Es & Ns & Ts).
  exists (String l lang), name, slug.
  repeat (split; [assumption|]).
  unfold onSubmit. rewrite El, En, Es.
  destruct name as [|a name']; [contradiction|].
  destruct slug as [|b slug']; [contradiction|].
  split.
  - intros Hc. rewrite Hc. reflexivity.
  - intros Hc. unfold formIsDisabled in Hd. rewrite Hc in *.
    destruct (Props.collection props) as [c|]; [|discriminate Hd].
    exists c. split; reflexivity.
Qed.

(** ** Adding an add-on *)

(** X10.  [onAddonSelected] makes three checks in turn and throws at the
    first that fails, having dispatched nothing: the add-on identifier is
    missing or zero, no collection is loaded, nobody is signed in.
    Otherwise it dispatches one [addAddonToCollection] for that add-on,
    the loaded collection and the signed-in user, sets the added-status
    to pending and leaves the edits of the buffer as they are. *)
Theorem onAddonSelected_spec (props : Props.t) (errorHandler_id : string)
  (addonId : option Z) (s : State.t) :
  let r := onAddonSelected props errorHandler_id addonId s in
  match addonId with
  | None | Some Z0 => r = ([], Threw "addonId cannot be empty")
  | Some id =>
      match Props.collection props with
      | None =>
          r = ([], Threw "A collection must be loaded before you can add an add-on to it")
      | Some collection =>
          match Props.currentUsername props with
          | None | Some EmptyString =>
              r = ([], Threw "Cannot add to collection because you are not signed in")
          | Some username =>
              r = ([dispatch (addAddonToCollection
                      {| AddParams.addonId := id;
                         AddParams.collectionId := Collection.id collection;
                         AddParams.editing := true;
                         AddParams.errorHandlerId := errorHandler_id;
                         AddParams.filters := Props.filters props;
                         AddParams.slug := Collection.slug collection;
                         AddParams.username := username |})],
                   Returned (State.setAddonAddedStatus
                               (Some ADDON_ADDED_STATUS_PENDING) s))
              /\ edits (State.setAddonAddedStatus
                          (Some ADDON_ADDED_STATUS_PENDING) s) = edits s
          end
      end
  end.
Proof.
  unfold onAddonSelected.
  destruct addonId as [[|i|i]|]; simpl; try reflexivity;
    destruct (Props.collection props) as [c|]; try reflexivity;
    destruct (Props.currentUsername props) as [[|u user]|];
    try reflexivity; split; reflexivity.
Qed.

(** X11.  While no collection is loaded outside create mode, loading
    placeholders stand for the name and description inputs, but the slug
    input and the add-on search are still shown: a text input on the slug
    field is stored in the buffer, and selecting an add-on throws without
    dispatching anything. *)
Theorem search_shown_before_collection (gettext : string -> string)
  (props : Props.t) (errorHandler_id : string) (addonId : option Z)
  (s : State.t) (value : string) :
  Props.creating props = false ->
  Props.collection props = None ->
  FormView.searchShown (render gettext props s) = true
  /\ FormView.nameInputShown (render gettext props s) = false
  /\ FormView.descriptionInputShown (render gettext props s) = false
  /\ FormView.slugInputShown (render gettext props s) = true
  /\ onTextInput props s (Target.mk slug_input (Some value))
     = State.setSlug (Some value) s
  /\ exists message,
       onAddonSelected props errorHandler_id addonId s = ([], Threw message).
Proof.
  intros Hc Hn. unfold render, onAddonSelected, onTextInput. simpl.
  rewrite Hc, Hn. simpl.
  repeat split. destruct addonId as [[|i|i]|]; eexists; reflexivity.
Qed.

(** ** The added-status and its timers *)

Section Timers.

Variable decodeHtmlEntities : option string -> option string.

Local Abbreviation componentWillReceiveProps :=
  (componentWillReceiveProps decodeHtmlEntities).
Local Abbreviation receiveProps := (receiveProps decodeHtmlEntities).
Local Abbreviation step := (step decodeHtmlEntities).
Local Abbreviation run := (run decodeHtmlEntities).
Local Abbreviation mount := (mount decodeHtmlEntities).

(** X12.  After a reception of props the added-status is success when the
    added flag has risen and null when it has fallen, whatever the status
    was (a pending status included); with the flag unchanged it is null
    when another collection has arrived and is kept otherwise. *)
Theorem status_after_reception (this : Component) (newProps : Props.t)
  (w : Window.Timers) :
  State.addonAddedStatus
    (state (fst (componentWillReceiveProps this newProps w)))
  = match Props.hasAddonBeenAdded (props this),
          Props.hasAddonBeenAdded newProps with
    | false, true => Some ADDON_ADDED_STATUS_SUCCESS
    | true, false => None
    | _, _ =>
        match Props.collection newProps with
        | Some c =>
            if opt_Z_eqb (Some (Collection.id c)) (currentId this)
            then State.addonAddedStatus (state this)
            else None
        | None => State.addonAddedStatus (state this)
        end
    end.
Proof.
  unfold CollectionManager.componentWillReceiveProps, currentId.
  destruct (Props.hasAddonBeenAdded (props this)),
    (Props.hasAddonBeenAdded newProps); simpl; try reflexivity;
    destruct (Props.collection newProps) as [c|]; try reflexivity;
    destruct (option_map Collection.id (Props.collection (props this)))
      as [y|]; try reflexivity;
    destruct (Collection.id c =? y)%Z; reflexivity.
Qed.

(** X13.  After one add-on has been added to a freshly mounted form, the
    success notice is shown until the reset delay has passed and no
    longer: after [dt] time units it is shown exactly when [dt] is below
    5000. *)
Theorem notice_shown_for_delay (gettext : string -> string)
  (props newProps : Props.t) (dt : N) :
  Props.hasAddonBeenAdded props = false ->
  Props.hasAddonBeenAdded newProps = true ->
  let x := run (mount props) [Receive newProps; Elapse dt] in
  FormView.noticeShown
    (render gettext (CollectionManager.props (component x))
       (state (component x)))
  = (dt <? 5000)%N.
Proof.
  intros H0 H1. unfold CollectionManager.run, CollectionManager.mount. simpl.
  unfold CollectionManager.receiveProps,
    CollectionManager.componentWillReceiveProps. simpl.
  rewrite H0, H1. simpl.
  unfold Window.dueAt. simpl. unfold MESSAGE_RESET_TIME.
  rewrite N.ltb_antisym.
  destruct (5000 <=? dt)%N; reflexivity.
Qed.

Lemma fire_keeps_timeout due : forall this log,
  timeout (fst (fire due this log)) = timeout this
  /\ mounted (fst (fire due this log)) = mounted this.
Proof.
  induction due as [|[i t] rest IH]; intros this log; simpl; [auto|].
  destruct (IH (resetMessageStatus this) (log ++ [(t, mounted this)]))
    as [H1 H2].
  rewrite H1, H2. split; reflexivity.
Qed.

Lemma fire_calls due : forall this log,
  List.length (snd (fire due this log))
  = (List.length log + List.length due)%nat.
Proof.
  induction due as [|[i t] rest IH]; intros this log; simpl; [lia|].
  rewrite IH, length_app. simpl. lia.
Qed.

Lemma dueAt_waitingAt_length t w :
  (List.length (Window.dueAt t w) + List.length (Window.waitingAt t w)
   = List.length (Window.pending w))%nat.
Proof.
  unfold Window.dueAt, Window.waitingAt. apply List.filter_length.
Qed.

(** Removing timers from the table keeps the identifiers distinct. *)
Lemma distinct_ids_filter (keep : N * N -> bool) (timers : list (N * N)) :
  NoDup (map fst timers) -> NoDup (map fst (filter keep timers)).
Proof.
  intros D. induction timers as [|t rest IH]; [constructor|].
  simpl in D. apply NoDup_cons_iff in D. destruct D as [Hfresh Hrest].
  simpl. destruct (keep t); [|exact (IH Hrest)].
  simpl. apply NoDup_cons_iff. split; [|exact (IH Hrest)].
  intros Hin. apply Hfresh. apply in_map_iff in Hin.
  destruct Hin as (u & Hu & Hin). apply filter_In in Hin.
  apply in_map_iff. exists u. tauto.
Qed.

(** One step keeps the timer table well formed and the calls bounded. *)
Lemma step_keeps_timers x e :
  timersWellFormed x /\ callsBounded x ->
  timersWellFormed (step x e) /\ callsBounded (step x e).
Proof.
  unfold timersWellFormed, callsBounded.
  intros [(Hn & Hp & Hd & Ht) Hc].
  destruct e as [newProps|target|dt|]; simpl.
  - destruct (mounted (component x)); [|repeat split; assumption].
    unfold CollectionManager.receiveProps,
      CollectionManager.componentWillReceiveProps.
    destruct (Props.hasAddonBeenAdded newProps
              && negb (Bool.eqb (Props.hasAddonBeenAdded newProps)
                         (Props.hasAddonBeenAdded (props (component x)))));
      simpl; [|repeat split; assumption].
    repeat split.
    + lia.
    + apply Forall_app. split.
      * eapply Forall_impl; [|exact Hp]. simpl. intros a [Ha Hb].
        split; [lia | exact Hb].
      * constructor; [|constructor]. simpl. unfold MESSAGE_RESET_TIME. lia.
    + rewrite map_app. simpl. apply NoDup_app; [exact Hd | | ].
      * constructor; [intros [] | constructor].
      * intros a Ha [Hb|[]]. subst a. apply in_map_iff in Ha.
        destruct Ha as (y & Hy & Hin).
        pose proof (proj1 (Forall_forall _ _) Hp y Hin) as [Hlt _].
        rewrite Hy in Hlt. lia.
    + lia.
    + lia.
    + rewrite length_app. simpl. lia.
  - destruct (mounted (component x)); simpl; repeat split; assumption.
  - pose proof (fire_keeps_timeout
                  (Window.dueAt (Window.now (window x) + dt) (window x))
                  (component x) (calls x)) as [F1 _].
    pose proof (fire_calls
                  (Window.dueAt (Window.now (window x) + dt) (window x))
                  (component x) (calls x)) as F2.
    pose proof (dueAt_waitingAt_length (Window.now (window x) + dt) (window x)) as F3.
    destruct (fire _ (component x) (calls x)) as [this' log']. simpl in *.
    repeat split.
    + exact Hn.
    + unfold Window.waitingAt. apply Forall_forall. intros a Ha.
      apply filter_In in Ha. destruct Ha as [Ha _].
      pose proof (proj1 (Forall_forall _ _) Hp a Ha) as [H1 H2].
      split; [exact H1 | lia].
    + unfold Window.waitingAt. apply distinct_ids_filter. exact Hd.
    + rewrite F1. exact Ht.
    + lia.
  - destruct (mounted (component x)); simpl; [|repeat split; assumption].
    unfold componentWillUnmount.
    destruct (timeout (component x)) as [id|]; [|repeat split; assumption].
    destruct Ht as [Ht1 Ht2].
    destruct (id =? 0)%N; [repeat split; assumption|].
    unfold Window.clearTimeout. simpl. repeat split.
    + exact Hn.
    + apply Forall_forall. intros a Ha. apply filter_In in Ha.
      destruct Ha as [Ha _]. exact (proj1 (Forall_forall _ _) Hp a Ha).
    + apply distinct_ids_filter. exact Hd.
    + exact Ht1.
    + exact Ht2.
    + pose proof (List.filter_length_le (fun t => negb (fst t =? id)%N)
                    (Window.pending (window x))). lia.
Qed.

Lemma run_keeps_timers steps : forall x,
  timersWellFormed x /\ callsBounded x ->
  timersWellFormed (run x steps) /\ callsBounded (run x steps).
Proof.
  induction steps as [|e rest IH]; intros x H; [exact H|].
  unfold CollectionManager.run in *. simpl. apply IH, step_keeps_timers, H.
Qed.

Lemma mount_timers props :
  timersWellFormed (mount props) /\ callsBounded (mount props).
Proof.
  unfold timersWellFormed, callsBounded, CollectionManager.mount. simpl.
  repeat split; try lia; constructor.
Qed.

(** X14.  Along every life of a mounted form the timer table stays well
    formed: the pending timers have distinct positive identifiers and are
    due within 5000 time units, and [this.timeout], once set, is a
    positive identifier, so that the test [if (this.timeout)] of
    [componentWillUnmount] never takes a set timer for an unset one. *)
Theorem timers_stay_well_formed (props : Props.t) (steps : list Step) :
  timersWellFormed (run (mount props) steps).
Proof. exact (proj1 (run_keeps_timers steps _ (mount_timers props))). Qed.

(** X15.  Along every life of a mounted form, [resetMessageStatus] has
    been called at most once per timer set: the calls made and the timers
    still pending never outnumber the timers set. *)
Theorem reset_called_at_most_once_per_timer (props : Props.t)
  (steps : list Step) :
  let x := run (mount props) steps in
  (N.of_nat (List.length (calls x))
   + N.of_nat (List.length (Window.pending (window x)))
   <= Window.nextId (window x) - 1)%N.
Proof.
  intros x.
  pose proof (proj2 (run_keeps_timers steps _ (mount_timers props))) as H.
  unfold callsBounded in H. fold x in H. lia.
Qed.

Lemma unmounted_idle steps : forall x,
  mounted (component x) = false ->
  Window.pending (window x) = [] ->
  calls (run x steps) = calls x.
Proof.
  induction steps as [|e rest IH]; intros x Hm Hp; [reflexivity|].
  unfold CollectionManager.run in *. simpl.
  destruct e as [newProps|target|dt|]; simpl; rewrite ?Hm; try (apply IH; assumption).
  unfold Window.dueAt, Window.waitingAt. rewrite Hp. simpl.
  rewrite IH; simpl; auto.
Qed.

(** X16.  When the only timer that may be pending is the one that
    [this.timeout] remembers, unmounting the form cancels it:
    [resetMessageStatus] is never called afterwards, whatever follows. *)
Theorem unmount_cancels_remembered_timer (x : World) (steps : list Step) :
  mounted (component x) = true ->
  onlyRememberedTimer x ->
  calls (run x (Unmount :: steps)) = calls x.
Proof.
  intros Hm Ho. unfold CollectionManager.run. simpl. rewrite Hm.
  fold (run {| component :=
                 {| CollectionManager.props := CollectionManager.props (component x);
                    state := state (component x);
                    timeout := timeout (component x);
                    mounted := false |};
               window := componentWillUnmount (component x) (window x);
               calls := calls x |} steps).
  rewrite unmounted_idle; [reflexivity | reflexivity |].
  simpl. unfold componentWillUnmount.
  destruct Ho as [Hp|(id & due & Hp & Ht & Hid)].
  - destruct (timeout (component x)) as [id|]; [|exact Hp].
    destruct (id =? 0)%N; [exact Hp|].
    unfold Window.clearTimeout. simpl. rewrite Hp. reflexivity.
  - rewrite Ht. apply N.eqb_neq in Hid. rewrite Hid.
    unfold Window.clearTimeout. simpl. rewrite Hp. simpl.
    rewrite N.eqb_refl. reflexivity.
Qed.

End Timers.

(** ** The error-handler identifier *)

Lemma append_cancel (p a b : string) : (p ++ a = p ++ b)%string -> a = b.
Proof.
  induction p as [|c p IH]; simpl; intros H; [exact H|].
  inversion H. apply IH. assumption.
Qed.

(** X17.  The identifier of the form's error handler depends on the slug
    of the collection alone: two forms share it exactly when their
    collections have the same slug, a missing collection counting as an
    empty slug. *)
Theorem extractId_by_slug (a b : option Collection.t) :
  extractId a = extractId b
  <-> match a with Some c => Collection.slug c | None => EmptyString end
      = match b with Some c => Collection.slug c | None => EmptyString end.
Proof.
  unfold extractId. split.
  - apply append_cancel.
  - intros H. rewrite H. reflexivity.
Qed.

(** ** Concrete instances *)

Lemma typed_name_enables_submit_witness :
  Props.creating newCollectionProps = true
  /\ Props.collection newCollectionProps = None
  /\ Props.isCollectionBeingModified newCollectionProps = false
  /\ State.customSlug emptyBuffer = false
  /\ isSubmitDisabled newCollectionProps
       (onTextInput newCollectionProps emptyBuffer
          (Target.mk name_input (Some "Foo Bar"))) = false.
Proof.
  repeat (split; [reflexivity|]).
  apply (proj2 (typed_name_enables_submit newCollectionProps emptyBuffer
                  "Foo Bar" eq_refl eq_refl eq_refl eq_refl)).
  exists "F"%char. split; reflexivity.
Defined.

Lemma fresh_buffer_disables_submit_witness :
  isSubmitDisabled (sampleProps false false)
    (propsToState decodeAmpersand (sampleProps false false)) = true.
Proof.
  apply (fresh_buffer_disables_submit decodeAmpersand (sampleProps false false)).
  intros c Hc. inversion Hc; subst c. split; [reflexivity|].
  right. split; reflexivity.
Defined.

Lemma decoded_name_enables_submit_witness :
  Props.collection entityProps = Some entityCollection
  /\ Props.isCollectionBeingModified entityProps = false
  /\ decodeAmpersand (Some (Collection.name entityCollection))
     = Some "Tom & Jerry"
  /\ isSubmitDisabled entityProps (propsToState decodeAmpersand entityProps)
     = false.
Proof.
  repeat (split; [reflexivity|]).
  apply (decoded_name_enables_submit decodeAmpersand entityProps
           entityCollection "Tom & Jerry" eq_refl eq_refl eq_refl);
    discriminate.
Defined.

Lemma cancel_while_creating_witness :
  Props.creating newCollectionProps = true
  /\ Props.collection newCollectionProps = None
  /\ Props.isCollectionBeingModified newCollectionProps = false
  /\ onCancel noDecoding sampleQueryParams newCollectionProps
     = ([preventDefault; stopPropagation; router_goBack],
        Threw "A collection must be loaded before you can cancel").
Proof.
  repeat (split; [reflexivity|]).
  exact (proj2 (cancel_while_creating noDecoding sampleQueryParams
                  (fun s => s) newCollectionProps emptyBuffer
                  eq_refl eq_refl eq_refl)).
Defined.

Lemma onSubmit_throws_iff_witness :
  blank (State.name emptyBuffer)
  /\ exists message,
       EffMonad.outcome
         (onSubmit newCollectionProps "collection-" JSUndefined emptyBuffer)
       = Threw message.
Proof.
  split; [exact I|].
  apply (proj2 (proj1 (onSubmit_throws_iff newCollectionProps "collection-"
                         JSUndefined emptyBuffer))).
  right. left. exact I.
Defined.

Lemma enabled_submit_dispatches_witness :
  isSubmitDisabled (sampleProps false false)
    (bufferWith "  Privacy toolbox " None) = false
  /\ JSString.truthy_opt (Props.siteLang (sampleProps false false)) = true
  /\ exists params,
       onSubmit (sampleProps false false) "collection-privacy-tools"
         JSUndefined (bufferWith "  Privacy toolbox " None)
       = ([on preventDefault; on stopPropagation;
           dispatch (updateCollection params)], Returned tt)
       /\ UpdateParams.name params
          = mkLocalized "en-US" (Some "Privacy toolbox").
Proof.
  split; [reflexivity|]. split; [reflexivity|].
  destruct (enabled_submit_dispatches (sampleProps false false)
              "collection-privacy-tools" JSUndefined
              (bufferWith "  Privacy toolbox " None) eq_refl eq_refl)
    as (lang & name & slug & El & En & Es & _ & _ & _ & _ & _ & Hu).
  destruct (Hu eq_refl) as (c & _ & E).
  eexists. split; [exact E|].
  simpl. inversion El. inversion En. reflexivity.
Defined.

Lemma search_shown_before_collection_witness :
  Props.creating loadingProps = false
  /\ Props.collection loadingProps = None
  /\ FormView.searchShown (render (fun s => s) loadingProps emptyBuffer) = true
  /\ State.slug (onTextInput loadingProps emptyBuffer
                   (Target.mk slug_input (Some "early")))
     = Some "early".
Proof.
  split; [reflexivity|]. split; [reflexivity|].
  destruct (search_shown_before_collection (fun s => s) loadingProps
              "collection-" (Some 42%Z) emptyBuffer "early" eq_refl eq_refl)
    as (H1 & _ & _ & _ & H5 & _).
  split; [exact H1 | rewrite H5; reflexivity].
Defined.

Lemma notice_shown_for_delay_witness :
  Props.hasAddonBeenAdded (sampleProps false false) = false
  /\ Props.hasAddonBeenAdded (sampleProps false true) = true
  /\ FormView.noticeShown
       (render (fun s => s)
          (props (component
                    (run noDecoding (mount noDecoding (sampleProps false false))
                       [Receive (sampleProps false true); Elapse 4999])))
          (state (component
                    (run noDecoding (mount noDecoding (sampleProps false false))
                       [Receive (sampleProps false true); Elapse 4999]))))
     = true.
Proof.
  split; [reflexivity|]. split; [reflexivity|].
  exact (notice_shown_for_delay noDecoding (fun s => s)
           (sampleProps false false) (sampleProps false true) 4999
           eq_refl eq_refl).
Defined.

Lemma unmount_cancels_remembered_timer_witness :
  mounted (component afterOneAdd) = true
  /\ onlyRememberedTimer afterOneAdd
  /\ calls (run noDecoding afterOneAdd [Unmount; Elapse 5000; Elapse 5000])
     = [].
Proof.
  assert (O : onlyRememberedTimer afterOneAdd).
  { right. exists 1%N, 5000%N. repeat split. discriminate. }
  split; [reflexivity|]. split; [exact O|].
  exact (unmount_cancels_remembered_timer noDecoding afterOneAdd
           [Elapse 5000; Elapse 5000] eq_refl O).
Defined.

End CollectionManagerExtra.

(** * Further properties of the install button *)

Module InstallButtonExtra.

Import InstallButton InstallButtonCalls JSStringFacts InstallButtonFacts
  CollectionManagerHandlers CollectionManagerExtra.

(** ** [getFileHash] and the query string *)

Lemma no_question_mark_clean u :
  JSString.occurs "?" u = false ->
  allChars (fun c => negb (Ascii.eqb "?" c)) u = true.
Proof.
  induction u as [|d u IH]; cbn [allChars JSString.occurs]; [reflexivity|].
  intros H. apply orb_false_iff in H. destruct H as [Hd Hu].
  rewrite Hd, (IH Hu). reflexivity.
Qed.

Lemma urlKeyOf_without_query u :
  JSString.occurs "?" u = false -> urlKeyOf u = u.
Proof.
  intros H. unfold urlKeyOf.
  rewrite (split_clean _ u (no_question_mark_clean u H)). reflexivity.
Qed.

Lemma urlKeyOf_with_query u q :
  JSString.occurs "?" u = false -> urlKeyOf (u ++ String "?" q) = u.
Proof.
  intros H. unfold urlKeyOf.
  rewrite (split_clean_then_separator _ u "?" q (no_question_mark_clean u H)
             eq_refl).
  reflexivity.
Qed.

(** X18.  [getFileHash] returns the same for an install URL with and
    without a query string: a hash, or nothing, that depends on the part
    before the question mark alone. *)
Theorem getFileHash_ignores_query (addon : Addon.t) (u q : string) :
  u <> EmptyString ->
  JSString.occurs "?" u = false ->
  EffMonad.outcome (getFileHash (Some addon) (Some (u ++ String "?" q)%string))
  = Returned (firstHash u (currentFiles addon))
  /\ EffMonad.outcome (getFileHash (Some addon) (Some u))
     = Returned (firstHash u (currentFiles addon)).
Proof.
  intros Hne Hq. unfold getFileHash.
  destruct u as [|c u']; [contradiction|].
  change (String c u' ++ String "?" q)%string
    with (String c (u' ++ String "?" q)).
  change (String c (u' ++ String "?" q))
    with (String c u' ++ String "?" q)%string at 2 3.
  rewrite (urlKeyOf_with_query (String c u') q Hq).
  rewrite (urlKeyOf_without_query (String c u') Hq).
  destruct (firstHash (String c u') (currentFiles addon)); split; reflexivity.
Qed.

(** X19.  For an install URL that is a query string only, the key is
    empty and every file matches: [getFileHash] returns the hash of the
    first file of the current version, whatever its URL, and warns only
    when there is no file. *)
Theorem getFileHash_of_bare_query (addon : Addon.t) (q : string) :
  getFileHash (Some addon) (Some (String "?" q))
  = match currentFiles addon with
    | file :: _ => ([], Returned (Some (File.hash file)))
    | [] =>
        ([log_warn (noHashMessage addon (String "?" q) EmptyString)],
         Returned None)
    end.
Proof.
  unfold getFileHash, urlKeyOf. simpl.
  destruct (currentFiles addon) as [|file rest]; simpl; [reflexivity|].
  unfold JSString.startsWith. destruct (File.url file); reflexivity.
Qed.

(** ** Clicks *)

Section Clicks.

Variable getAddonIconUrl : Addon.t -> string.
Variable getAddonTypeForTracking : AddonTypeName -> string.
Variable getAddonEventCategory : AddonTypeName -> InstallAction -> string.
Variable findInstallURL : string -> JSValue -> JSValue -> JSValue -> option string.
Variable getThemeData : Addon.t -> JSValue.
Variable JSON_stringify : JSValue -> string.
Variable _getClientCompatibility : Addon.t -> string -> JSValue -> bool.
Variable gettext : string -> string.
Variable ADDON_TYPE_THEMES : list AddonTypeName.

Local Abbreviation click :=
  (InstallButton.click getAddonIconUrl getAddonTypeForTracking
     getAddonEventCategory).
Local Abbreviation render :=
  (InstallButton.render findInstallURL getThemeData JSON_stringify
     _getClientCompatibility gettext ADDON_TYPE_THEMES).
Local Abbreviation compatible props :=
  (_getClientCompatibility (Props.addon props) (Props.clientApp props)
     (Props.userAgentInfo props)).

(** The trace and outcome of a click, case by case. *)
Lemma click_cases h props event :
  let addon := Props.addon props in
  let started :=
    tracking_sendEvent (getAddonTypeForTracking (Addon.type addon))
      (getAddonEventCategory (Addon.type addon) INSTALL_STARTED_ACTION)
      (Addon.name addon) in
  match h with
  | onClick_preventDefault =>
      click h props event = ([preventDefault], Returned None)
  | onClick_uninstallAddon =>
      exists call,
        click h props event
        = ([preventDefault; stopPropagation; call], Returned (Some false))
        /\ isPreventDefault call = false /\ isTrackingEvent call = false
  | onClick_installTheme =>
      exists call,
        click h props event
        = ([preventDefault; stopPropagation; call], Returned None)
        /\ isPreventDefault call = false /\ isTrackingEvent call = false
  | onClick_installOpenSearch =>
      if Props._window_external props then
        click h props event
        = ([preventDefault; stopPropagation;
            log_info "Adding OpenSearch Provider";
            external_AddSearchProvider (currentTarget_href event); started],
           Returned (Some false))
      else
        exists message,
          click h props event
          = ([preventDefault; stopPropagation;
              log_info "Adding OpenSearch Provider"], Threw message)
  | onClick_installExtension =>
      if Props._InstallTrigger props then
        exists message,
          if JSString.truthy_opt (currentTarget_href event) then
            exists warning payload,
              click h props event
              = ([started; log_debug message; preventDefault; stopPropagation]
                 ++ map log_warn warning
                 ++ [InstallTrigger_install (Addon.name addon) payload],
                 Returned (Some false))
          else
            click h props event
            = ([started; log_debug message; preventDefault; stopPropagation],
               Threw "The installURL parameter cannot be empty")
      else click h props event = ([started], Returned (Some true))
  end.
Proof.
  destruct h; simpl.
  - reflexivity.
  - eexists. split; [reflexivity | split; reflexivity].
  - eexists. split; [reflexivity | split; reflexivity].
  - unfold InstallButton.click, installOpenSearch, trackInstallStarted.
    destruct (Props._window_external props); [reflexivity|].
    eexists. reflexivity.
  - unfold InstallButton.click, installExtension, trackInstallStarted,
      getFileHash.
    destruct (Props._InstallTrigger props); [|reflexivity].
    eexists.
    destruct (currentTarget_href event) as [[|c u]|]; simpl; try reflexivity.
    destruct (firstHash _ _).
    + exists [], {| Payload.Hash := Some s;
                    Payload.IconURL := getAddonIconUrl (Props.addon props);
                    Payload.URL := Some (String c u) |}. reflexivity.
    + eexists [_], _. reflexivity.
Qed.

(** X20.  A click on the button throws in two cases only: the handler is
    [installExtension], the browser has [InstallTrigger], and the control
    has no [href] or an empty one; or the handler is [installOpenSearch]
    and the window has no [external] object.  [uninstallAddon],
    [installTheme] and the disabled handler never throw. *)
Theorem click_throws_iff (h : Handler) (props : Props.t) (event : Event) :
  (exists message, EffMonad.outcome (click h props event) = Threw message)
  <-> (h = onClick_installExtension
       /\ Props._InstallTrigger props = true
       /\ JSString.truthy_opt (currentTarget_href event) = false)
      \/ (h = onClick_installOpenSearch
          /\ Props._window_external props = false).
Proof.
  pose proof (click_cases h props event) as C. simpl in C.
  destruct h.
  - rewrite C. split; [intros [m H]; discriminate H|].
    intros [[H _]|[H _]]; discriminate H.
  - destruct C as (call & C & _). rewrite C.
    split; [intros [m H]; discriminate H|].
    intros [[H _]|[H _]]; discriminate H.
  - destruct C as (call & C & _). rewrite C.
    split; [intros [m H]; discriminate H|].
    intros [[H _]|[H _]]; discriminate H.
  - destruct (Props._window_external props).
    + rewrite C. split; [intros [m H]; discriminate H|].
      intros [[H _]|[_ H]]; discriminate H.
    + destruct C as (message & C). rewrite C.
      split; [intros _; right; auto | intros _; eexists; reflexivity].
  - destruct (Props._InstallTrigger props).
    + destruct C as (message & C).
      destruct (JSString.truthy_opt (currentTarget_href event)).
      * destruct C as (warning & payload & C). rewrite C.
        split; [intros [m H]; discriminate H|].
        intros [(_ & _ & H)|[H _]]; discriminate H.
      * rewrite C. split; [intros _; left; auto | intros _; eexists; reflexivity].
    + rewrite C. split; [intros [m H]; discriminate H|].
      intros [(_ & H & _)|[H _]]; discriminate H.
Qed.

Lemma count_warnings kind warning :
  kind = isPreventDefault \/ kind = isTrackingEvent ->
  count kind (map log_warn warning) = 0%nat.
Proof.
  intros [H|H]; subst kind; unfold count;
    induction warning as [|w l IH]; simpl; auto.
Qed.

(** X21.  A click prevents the default action of the event exactly once,
    except that [installExtension] in a browser without [InstallTrigger]
    does not prevent it at all. *)
Theorem click_prevents_default_once (h : Handler) (props : Props.t)
  (event : Event) :
  count isPreventDefault (EffMonad.trace (click h props event))
  = if isInstallExtension h && negb (Props._InstallTrigger props)
    then 0%nat else 1%nat.
Proof.
  pose proof (click_cases h props event) as C. simpl in C.
  destruct h; cbn [isInstallExtension installsThroughBrowser andb].
  - rewrite C. reflexivity.
  - destruct C as (call & C & Hp & _). rewrite C. unfold count. simpl.
    rewrite Hp. reflexivity.
  - destruct C as (call & C & Hp & _). rewrite C. unfold count. simpl.
    rewrite Hp. reflexivity.
  - destruct (Props._window_external props);
      [|destruct C as (message & C)]; rewrite C; reflexivity.
  - destruct (Props._InstallTrigger props); cbn [negb andb].
    + destruct C as (message & C).
      destruct (JSString.truthy_opt (currentTarget_href event)).
      * destruct C as (warning & payload & C). rewrite C.
        unfold count, EffMonad.trace. cbn [fst]. simpl.
        rewrite filter_app. rewrite length_app.
        fold (count isPreventDefault (map log_warn warning)).
        rewrite count_warnings; [reflexivity | auto].
      * rewrite C. reflexivity.
    + rewrite C. reflexivity.
Qed.

(** X22.  A click records exactly one tracking event when it installs an
    extension, also when the handler then throws, and when it installs a
    search provider in a window that has an [external] object; it records
    none when the search provider cannot be added for want of that
    object, nor when it uninstalls, installs a theme or is disabled. *)
Theorem click_tracks_install_started (h : Handler) (props : Props.t)
  (event : Event) :
  count isTrackingEvent (EffMonad.trace (click h props event))
  = match h with
    | onClick_installExtension => 1%nat
    | onClick_installOpenSearch =>
        if Props._window_external props then 1%nat else 0%nat
    | _ => 0%nat
    end.
Proof.
  pose proof (click_cases h props event) as C. simpl in C.
  destruct h.
  - rewrite C. reflexivity.
  - destruct C as (call & C & _ & Ht). rewrite C. unfold count. simpl.
    rewrite Ht. reflexivity.
  - destruct C as (call & C & _ & Ht). rewrite C. unfold count. simpl.
    rewrite Ht. reflexivity.
  - destruct (Props._window_external props);
      [|destruct C as (message & C)]; rewrite C; reflexivity.
  - destruct (Props._InstallTrigger props).
    + destruct C as (message & C).
      destruct (JSString.truthy_opt (currentTarget_href event)).
      * destruct C as (warning & payload & C). rewrite C.
        unfold count, EffMonad.trace. cbn [fst]. simpl.
        rewrite filter_app. rewrite length_app.
        fold (count isTrackingEvent (map log_warn warning)).
        rewrite count_warnings; [reflexivity | auto].
      * rewrite C. reflexivity.
    + rewrite C. reflexivity.
Qed.

(** ** What [render] returns *)

Lemma guard_false props :
  AddonTypeName_eqb (Addon.type (Props.addon props)) ADDON_TYPE_OPENSEARCH
  && Props.server props = false ->
  ~ (Addon.type (Props.addon props) = ADDON_TYPE_OPENSEARCH
     /\ Props.server props = true).
Proof.
  intros G [Ht Hs]. rewrite Ht, Hs in G. discriminate G.
Qed.

(** X23.  [render] never throws.  It returns nothing, after logging one
    message, exactly for a search provider on the server; otherwise it
    logs nothing and returns the loading animation, with the button text
    as alternative text, exactly when the status is downloading,
    enabling, installing or uninstalling, and the button in every other
    case. *)
Theorem render_outcome (props : Props.t) :
  let guarded := Addon.type (Props.addon props) = ADDON_TYPE_OPENSEARCH
                 /\ Props.server props = true in
  let inFlight := In (Props.status props)
                    [DOWNLOADING; ENABLING; INSTALLING; UNINSTALLING] in
  match render props with
  | (trace, Returned None) =>
      guarded
      /\ trace = [log_info "Not rendering opensearch install button on the server"]
  | (trace, Returned (Some (LoadingAnimation alt))) =>
      ~ guarded /\ inFlight /\ trace = []
      /\ alt = getButtonText gettext ADDON_TYPE_THEMES props
  | (trace, Returned (Some (ButtonElement _ _ _ _))) =>
      ~ guarded /\ ~ inFlight /\ trace = []
  | (_, Threw _) => False
  end.
Proof.
  unfold InstallButton.render.
  destruct (AddonTypeName_eqb (Addon.type (Props.addon props))
              ADDON_TYPE_OPENSEARCH && Props.server props) eqn:G.
  - apply andb_true_iff in G. destruct G as [G1 G2].
    apply AddonTypeName_eqb_eq in G1. simpl. auto.
  - apply guard_false in G. cbn [EffMonad.ret].
    destruct (showLoadingAnimation props) eqn:L.
    + repeat split; [exact G|].
      apply (proj1 (includes_In _ _)). exact L.
    + repeat split; [exact G|].
      intros Hin. apply (proj2 (includes_In _ _)) in Hin.
      unfold showLoadingAnimation in L. congruence.
Qed.

(** X24.  The props of a rendered button follow from its click handler:
    the handler only prevents the default exactly when the add-on is
    incompatible, and then the button has the disabled class; the button
    type is neutral for the uninstall handler and action otherwise; the
    theme data is attached for the theme handler only; and the language
    and application prefixes of the link are switched off exactly for the
    two handlers that install through the browser.  The [href] is always
    the install URL. *)
Theorem rendered_button_props (props : Props.t) (className : list string)
  (buttonProps : ButtonProps.t) (iconName text : string) :
  render props
  = ([], Returned (Some (ButtonElement className buttonProps iconName text))) ->
  let h := ButtonProps.onClick buttonProps in
  ButtonProps.href buttonProps
  = findInstallURL (Props.defaultInstallSource props) (Props.location props)
      (Addon.platformFiles (Props.addon props)) (Props.userAgentInfo props)
  /\ className = makeClassName (Props.className props) (negb (compatible props))
  /\ (h = onClick_preventDefault <-> compatible props = false)
  /\ ButtonProps.buttonType buttonProps
     = match h with
       | onClick_uninstallAddon => "neutral"
       | _ => "action"
       end
  /\ ButtonProps.data_browsertheme buttonProps
     = match h with
       | onClick_installTheme =>
           Some (JSON_stringify (getThemeData (Props.addon props)))
       | _ => None
       end
  /\ ButtonProps.prependClientApp buttonProps
     = (if installsThroughBrowser h then Some false else None)
  /\ ButtonProps.prependLang buttonProps
     = (if installsThroughBrowser h then Some false else None).
Proof.
  unfold InstallButton.render.
  destruct (AddonTypeName_eqb (Addon.type (Props.addon props))
              ADDON_TYPE_OPENSEARCH && Props.server props);
    [intros H; discriminate H|].
  cbn [EffMonad.ret].
  destruct (showLoadingAnimation props); [intros H; discriminate H|].
  intros H. cbv zeta. inversion H as [[Hc Hb Hi Ht]]. clear H.
  clear Hi Ht. subst className buttonProps.
  destruct (compatible props); cbn [negb];
    destruct (Props.status props);
    destruct (AddonTypeName_eqb (Addon.type (Props.addon props)) ADDON_TYPE_THEME);
    destruct (AddonTypeName_eqb (Addon.type (Props.addon props))
                ADDON_TYPE_OPENSEARCH);
    simpl; repeat split; intros; try reflexivity; discriminate.
Qed.

(** X25.  A rendered button shows the delete icon exactly for the
    statuses disabled, enabled and installed, and the plus icon
    otherwise; for a compatible add-on that is exactly when its click
    handler uninstalls, while an incompatible add-on keeps the icon with
    a handler that does nothing. *)
Theorem rendered_button_icon (props : Props.t) (className : list string)
  (buttonProps : ButtonProps.t) (iconName text : string) :
  render props
  = ([], Returned (Some (ButtonElement className buttonProps iconName text))) ->
  iconName = (if includes [DISABLED; ENABLED; INSTALLED] (Props.status props)
              then "delete" else "plus")
  /\ (compatible props = true ->
      (iconName = "delete"
       <-> ButtonProps.onClick buttonProps = onClick_uninstallAddon))
  /\ (compatible props = false ->
      ButtonProps.onClick buttonProps = onClick_preventDefault).
Proof.
  unfold InstallButton.render.
  destruct (AddonTypeName_eqb (Addon.type (Props.addon props))
              ADDON_TYPE_OPENSEARCH && Props.server props);
    [intros H; discriminate H|].
  cbn [EffMonad.ret].
  destruct (showLoadingAnimation props); [intros H; discriminate H|].
  intros H. inversion H as [[Hc Hb Hi Ht]]. clear H.
  clear Hc Ht. subst buttonProps iconName.
  unfold getIconName.
  destruct (compatible props); cbn [negb];
    destruct (Props.status props);
    destruct (AddonTypeName_eqb (Addon.type (Props.addon props)) ADDON_TYPE_THEME);
    destruct (AddonTypeName_eqb (Addon.type (Props.addon props))
                ADDON_TYPE_OPENSEARCH);
    simpl; repeat split; intros; try reflexivity; discriminate.
Qed.

End Clicks.

(** X26.  The text of the button depends on the add-on only while the
    add-on is not installed: for every other status two buttons with the
    same status have the same text, whatever their add-ons and whatever
    the list of theme types. *)
Theorem getButtonText_by_status (gettext : string -> string)
  (themes themes' : list AddonTypeName) (props props' : Props.t) :
  Props.status props = Props.status props' ->
  Props.status props <> UNINSTALLED ->
  getButtonText gettext themes props = getButtonText gettext themes' props'.
Proof.
  intros E N. unfold getButtonText. rewrite <- E.
  destruct (Props.status props); try reflexivity. contradiction.
Qed.

(** ** Concrete instances *)

Lemma getFileHash_ignores_query_witness :
  "https://addons.example/files/1/adblock.xpi" <> EmptyString
  /\ JSString.occurs "?" "https://addons.example/files/1/adblock.xpi" = false
  /\ EffMonad.outcome
       (getFileHash (Some (sampleAddon ADDON_TYPE_EXTENSION))
          (Some "https://addons.example/files/1/adblock.xpi?src=search"))
     = Returned (Some "sha256:0a1b").
Proof.
  split; [discriminate|]. split; [reflexivity|].
  exact (proj1 (getFileHash_ignores_query (sampleAddon ADDON_TYPE_EXTENSION)
                  "https://addons.example/files/1/adblock.xpi" "src=search"
                  ltac:(discriminate) eq_refl)).
Defined.

Lemma rendered_button_props_witness :
  sampleRender true installableExtension
  = ([], Returned (Some (ButtonElement ["InstallButton-button"]
       {| ButtonProps.buttonType := "action";
          ButtonProps.data_browsertheme := None;
          ButtonProps.href :=
            Some "https://addons.example/files/1/adblock.xpi?src=search";
          ButtonProps.onClick := onClick_installExtension;
          ButtonProps.prependClientApp := Some false;
          ButtonProps.prependLang := Some false |}
       "plus" "Add to Firefox")))
  /\ ["InstallButton-button"]
     = makeClassName (Props.className installableExtension) (negb true).
Proof.
  split; [reflexivity|].
  exact (proj1 (proj2 (rendered_button_props sampleInstallURL sampleThemeData
                         sampleStringify (sampleCompatibility true)
                         sampleGettext [ADDON_TYPE_THEME] installableExtension
                         _ _ _ _ eq_refl))).
Defined.

Lemma rendered_button_icon_witness :
  sampleRender false (sampleProps ADDON_TYPE_EXTENSION INSTALLED true false)
  = ([], Returned (Some (ButtonElement
       ["InstallButton-button"; "InstallButton-button--disabled"]
       {| ButtonProps.buttonType := "action";
          ButtonProps.data_browsertheme := None;
          ButtonProps.href :=
            Some "https://addons.example/files/1/adblock.xpi?src=search";
          ButtonProps.onClick := onClick_preventDefault;
          ButtonProps.prependClientApp := None;
          ButtonProps.prependLang := None |}
       "delete" "Remove")))
  /\ "delete"
     = (if includes [DISABLED; ENABLED; INSTALLED]
             (Props.status (sampleProps ADDON_TYPE_EXTENSION INSTALLED true false))
        then "delete" else "plus").
Proof.
  split; [reflexivity|].
  exact (proj1 (rendered_button_icon sampleInstallURL sampleThemeData
                  sampleStringify (sampleCompatibility false)
                  sampleGettext [ADDON_TYPE_THEME]
                  (sampleProps ADDON_TYPE_EXTENSION INSTALLED true false)
                  _ _ _ _ eq_refl)).
Defined.

Lemma getButtonText_by_status_witness :
  Props.status (sampleProps ADDON_TYPE_THEME INSTALLING true false)
  = Props.status (sampleProps ADDON_TYPE_EXTENSION INSTALLING false false)
  /\ Props.status (sampleProps ADDON_TYPE_THEME INSTALLING true false)
     <> UNINSTALLED
  /\ getButtonText sampleGettext [ADDON_TYPE_THEME]
       (sampleProps ADDON_TYPE_THEME INSTALLING true false)
     = getButtonText sampleGettext []
         (sampleProps ADDON_TYPE_EXTENSION INSTALLING false false).
Proof.
  split; [reflexivity|]. split; [discriminate|].
  apply (getButtonText_by_status sampleGettext [ADDON_TYPE_THEME] []
           (sampleProps ADDON_TYPE_THEME INSTALLING true false)
           (sampleProps ADDON_TYPE_EXTENSION INSTALLING false false) eq_refl).
  discriminate.
Defined.

End InstallButtonExtra.
